(** * Neuron dashboard: a shallow embedding of the state-display logic

  The development follows the TypeScript/JavaScript sources of the
  dashboard and of the test-project fixture:

  - [Js]           the JavaScript primitives the code relies on (numbers,
                   [Math.max], [Array.prototype.findIndex], truthiness);
  - [Agent], [Task], [Project], [LogEntry], ...
                   the enumerations and record shapes of [types/neuron.ts];
  - [Pipeline]     [components/pipeline/TaskPipeline.tsx];
  - [Context]      the provider of [context/NeuronContext.tsx];
  - [LogsPage]     [pages/Logs.tsx];
  - [Dashboard]    the polling component of [App.jsx];
  - [Auth]         the two [authController.js] login handlers;
  - [Examples], [PollExamples]
                   concrete stores and backends;
  - [JsArray]      [Array.prototype.sort], [String.prototype.split],
                   [Math.floor];
  - [PipelineView] the stage circles of [TaskPipeline.tsx];
  - [AgentsView]   [pages/Agents.tsx], [RightPanel], [AgentGrid], [AgentCard];
  - [Simulation]   the interval of [NeuronProvider];
  - [LogsView]     [BottomDrawer] and the empty state of [Logs.tsx];
  - [Actions]      the action handlers and the timeline of [App.jsx];
  - [Session]      [verifyToken] and the two login forms;
  - [ProjectView]  [components/project/ProjectStatus.tsx].

  Definitions come first; the theorems about them are at the end. *)

From Stdlib Require Import ZArith Floats.PrimFloat Floats.SpecFloat Floats.FloatOps
  Numbers.Cyclic.Int63.Uint63.
From stdpp Require Import base option list strings.

Local Open Scope string_scope.

(* ===================================================================== *)
(** ** JavaScript primitives *)
(* ===================================================================== *)

Module Js.

(** A JavaScript [number] is an IEEE 754 binary64 value. *)
Definition number : Set := float.

(** Integers of small magnitude (array indices, lengths) as numbers. *)
Definition number_of_Z (z : Z) : number :=
  match z with
  | Z0 => PrimFloat.zero
  | Zpos _ => PrimFloat.of_uint63 (Uint63.of_Z z)
  | Zneg p => PrimFloat.opp (PrimFloat.of_uint63 (Uint63.of_Z (Zpos p)))
  end.

(** [Math.max(a, b)]: NaN is contagious and [+0] is larger than [-0]. *)
Definition Math_max (a b : number) : number :=
  if PrimFloat.is_nan a || PrimFloat.is_nan b then PrimFloat.nan
  else if PrimFloat.ltb a b then b
  else if PrimFloat.ltb b a then a
  else if PrimFloat.is_zero a && PrimFloat.get_sign a then b
  else a.

(** [arr.findIndex(p)]: index of the first element satisfying [p],
    [-1] when there is none. *)
Fixpoint findIndex_from {A : Type} (p : A → bool) (arr : list A) (i : Z) : Z :=
  match arr with
  | [] => (-1)%Z
  | x :: rest => if p x then i else findIndex_from p rest (i + 1)%Z
  end.

Definition findIndex {A : Type} (p : A → bool) (arr : list A) : Z :=
  findIndex_from p arr 0%Z.

(** Truthiness of a possibly absent string: [undefined], [null] and the
    empty string are falsy. *)
Definition truthy (s : option string) : bool :=
  match s with
  | Some s => negb (bool_decide (s = ""))
  | None => false
  end.

(** [s || d] for a possibly absent string. *)
Definition string_or (s : option string) (d : string) : string :=
  match s with
  | Some s => if bool_decide (s = "") then d else s
  | None => d
  end.

(** [x || d] where [x] is an array or an object when present: arrays and
    objects are always truthy, so only absence selects [d]. *)
Definition object_or {A : Type} (x : option A) (d : A) : A :=
  match x with
  | Some v => v
  | None => d
  end.

(** A value whose shape the code does not inspect ([unknown] in the
    TypeScript declarations). *)
#[warnings="-register-all"]
Inductive value : Type :=
| Null
| Bool (b : bool)
| Num (n : number)
| Str (s : string)
| Arr (items : list value)
| Obj (fields : list (string * value)).

(** A [Date], as its time value in milliseconds since the epoch. *)
Definition Date : Set := Z.

End Js.

(* ===================================================================== *)
(** ** Record shapes, [types/neuron.ts] *)
(* ===================================================================== *)

Module AgentStatus.
Inductive t : Set := idle | working | waiting | failed.
#[global] Instance eq_dec : EqDecision t.
Proof. solve_decision. Defined.
End AgentStatus.

Module TaskStatus.
Inductive t : Set :=
| received | analyzing | implementing | patching | verifying | completed | failed.
#[global] Instance eq_dec : EqDecision t.
Proof. solve_decision. Defined.
End TaskStatus.

Module CoreStatus.
Inductive t : Set := running | idle | error.
End CoreStatus.

Module WorkspaceMode.
Inductive t : Set := safe | live.
End WorkspaceMode.

Module LogSeverity.
Inductive t : Set := info | warning | error | debug.
#[global] Instance eq_dec : EqDecision t.
Proof. solve_decision. Defined.
End LogSeverity.

Module AgentType.
Inductive t : Set := architect | backend | frontend | reviewer | patcher | verifier.
End AgentType.

Module Agent.
Record t : Set := {
  id : string;
  name : string;
  type : AgentType.t;
  status : AgentStatus.t;
  currentAction : string;
  lastResponseTime : Js.number;
  tokenUsage : Js.number;
  enabled : bool;
}.
End Agent.

Module TriggerSource.
Inductive t : Set := cli | ui | api.
End TriggerSource.

Module Task.
Record t : Set := {
  id : string;
  name : string;
  description : string;
  status : TaskStatus.t;
  triggerSource : TriggerSource.t;
  agents : list string;
  filesTouched : list string;
  timeElapsed : Js.number;
  startedAt : Js.Date;
  completedAt : option Js.Date;
}.
End Task.

Module Project.
Record t : Set := {
  id : string;
  name : string;
  localPath : string;
  gitBranch : string;
  workspaceMode : WorkspaceMode.t;
  coreStatus : CoreStatus.t;
  activeTask : option Task.t;
  lastActiveAt : Js.Date;
}.
End Project.

Module LogEntry.
Record t : Type := {
  id : string;
  timestamp : Js.Date;
  severity : LogSeverity.t;
  agent : option string;
  message : string;
  context : option (list (string * Js.value));
}.
End LogEntry.

Module FileChangeType.
Inductive t : Set := created | modified | skipped.
End FileChangeType.

Module FileChange.
Record t : Set := {
  path : string;
  type : FileChangeType.t;
  isWorkspace : bool;
  diff : option string;
}.
End FileChange.

Module UsageMetrics.
Record t : Set := {
  tokensUsed : Js.number;
  apiCalls : Js.number;
  estimatedCost : Js.number;
  avgTaskTime : Js.number;
  agentFailureRate : Js.number;
  retryCount : Js.number;
}.
End UsageMetrics.

(* ===================================================================== *)
(** ** The task pipeline, [TaskPipeline.tsx] *)
(* ===================================================================== *)

Module Pipeline.

Import TaskStatus.
Abbreviation TaskStatus := TaskStatus.t.

(** The icons imported from [lucide-react]. *)
Inductive Icon : Set :=
| Inbox | Search | Code | FileEdit | CheckCircle | XCircle | ShieldCheck | Clock.

Record Stage : Set := {
  status : TaskStatus;
  label : string;
  icon : Icon;
}.

Definition stages : list Stage := [
  {| status := received; label := "Received"; icon := Inbox |};
  {| status := analyzing; label := "Analyzing"; icon := Search |};
  {| status := implementing; label := "Implementing"; icon := Code |};
  {| status := patching; label := "Patching"; icon := FileEdit |};
  {| status := verifying; label := "Verifying"; icon := ShieldCheck |};
  {| status := completed; label := "Completed"; icon := CheckCircle |}
].

Definition stageIndex (st : TaskStatus) : Z :=
  if bool_decide (st = failed) then (-1)%Z
  else Js.findIndex (λ s, bool_decide (status s = st)) stages.

(** The inline style of the progress line:
    [Math.max(0, (currentStage / (stages.length - 1)) * 100)]. *)
Definition fillPercent (currentStage : Z) : Js.number :=
  Js.Math_max 0%float
    (PrimFloat.mul
       (PrimFloat.div (Js.number_of_Z currentStage)
                      (Js.number_of_Z (Z.of_nat (length stages) - 1)))
       100%float).

(** What the component computes from the active task's status. *)
Definition currentStage (st : TaskStatus) : Z := stageIndex st.
Definition isFailed (st : TaskStatus) : bool := bool_decide (st = failed).
Definition progressWidth (st : TaskStatus) : Js.number :=
  fillPercent (currentStage st).

(** Per-stage flags of the [stages.map] callback. *)
Definition isActive (st : TaskStatus) (index : nat) : bool :=
  bool_decide (Z.of_nat index = currentStage st).
Definition isCompleted (st : TaskStatus) (index : nat) : bool :=
  bool_decide (Z.of_nat index < currentStage st)%Z.
Definition isCurrent (st : TaskStatus) (index : nat) : bool :=
  isActive st index && negb (isFailed st).

End Pipeline.

(* ===================================================================== *)
(** ** The provider, [context/NeuronContext.tsx] *)
(* ===================================================================== *)

Module Context.

(** A request to the backend. The provider never issues one; the intents
    below report the requests they make so that this can be stated. *)
Inductive Request : Set :=
| GET (url : string)
| POST (url : string) (body : string).

(** The state cells of [NeuronProvider]. *)
Record Store : Type := {
  agents : list Agent.t;
  tasks : list Task.t;
  activeProject : option Project.t;
  logs : list LogEntry.t;
  fileChanges : list FileChange.t;
  metrics : UsageMetrics.t;
}.

(** [setAgents(prev => f prev)]. *)
Definition setAgents (f : list Agent.t → list Agent.t) (s : Store) : Store :=
  {| agents := f (agents s);
     tasks := tasks s;
     activeProject := activeProject s;
     logs := logs s;
     fileChanges := fileChanges s;
     metrics := metrics s |}.

(** The outcome of an intent: the next store and the backend requests made. *)
Definition Intent : Type := Store → Store * list Request.

Definition toggleAgentEnabled (agentId : string) : Intent := λ s,
  (setAgents (λ prev,
     (λ agent,
        if bool_decide (Agent.id agent = agentId)
        then (* { ...agent, enabled: !agent.enabled } *)
          {| Agent.id := Agent.id agent;
             Agent.name := Agent.name agent;
             Agent.type := Agent.type agent;
             Agent.status := Agent.status agent;
             Agent.currentAction := Agent.currentAction agent;
             Agent.lastResponseTime := Agent.lastResponseTime agent;
             Agent.tokenUsage := Agent.tokenUsage agent;
             Agent.enabled := negb (Agent.enabled agent) |}
        else agent) <$> prev) s,
   []).

Definition retryAgent (agentId : string) : Intent := λ s,
  (setAgents (λ prev,
     (λ agent,
        if bool_decide (Agent.id agent = agentId)
           && bool_decide (Agent.status agent = AgentStatus.failed)
        then (* { ...agent, status: 'working', currentAction: 'Retrying...' } *)
          {| Agent.id := Agent.id agent;
             Agent.name := Agent.name agent;
             Agent.type := Agent.type agent;
             Agent.status := AgentStatus.working;
             Agent.currentAction := "Retrying...";
             Agent.lastResponseTime := Agent.lastResponseTime agent;
             Agent.tokenUsage := Agent.tokenUsage agent;
             Agent.enabled := Agent.enabled agent |}
        else agent) <$> prev) s,
   []).

(** The task controls have empty bodies. (The two-second interval that
    bumps [tokenUsage] and [lastResponseTime] of working agents with
    [Math.random] is a separate writer of the [agents] cell and is not
    part of any intent.) *)
Definition startTask : Intent := λ s, (s, []).
Definition pauseTask : Intent := λ s, (s, []).
Definition abortTask : Intent := λ s, (s, []).

(** The mock data the provider starts from. *)
#[warnings="-inexact-float"]
Definition mockAgents : list Agent.t := [
  {| Agent.id := "1"; Agent.name := "Architect"; Agent.type := AgentType.architect;
     Agent.status := AgentStatus.idle; Agent.currentAction := "Awaiting instructions";
     Agent.lastResponseTime := 0%float; Agent.tokenUsage := 0%float; Agent.enabled := true |};
  {| Agent.id := "2"; Agent.name := "Backend Agent"; Agent.type := AgentType.backend;
     Agent.status := AgentStatus.working;
     Agent.currentAction := "Generating API endpoints for user authentication";
     Agent.lastResponseTime := 1.2%float; Agent.tokenUsage := 4521%float; Agent.enabled := true |};
  {| Agent.id := "3"; Agent.name := "Frontend Agent"; Agent.type := AgentType.frontend;
     Agent.status := AgentStatus.waiting; Agent.currentAction := "Waiting for backend schema";
     Agent.lastResponseTime := 0.8%float; Agent.tokenUsage := 2103%float; Agent.enabled := true |};
  {| Agent.id := "4"; Agent.name := "Code Reviewer"; Agent.type := AgentType.reviewer;
     Agent.status := AgentStatus.idle; Agent.currentAction := "Queue empty";
     Agent.lastResponseTime := 0%float; Agent.tokenUsage := 0%float; Agent.enabled := true |};
  {| Agent.id := "5"; Agent.name := "File Patcher"; Agent.type := AgentType.patcher;
     Agent.status := AgentStatus.working;
     Agent.currentAction := "Applying changes to src/api/auth.ts";
     Agent.lastResponseTime := 0.3%float; Agent.tokenUsage := 892%float; Agent.enabled := true |};
  {| Agent.id := "6"; Agent.name := "Verifier"; Agent.type := AgentType.verifier;
     Agent.status := AgentStatus.idle; Agent.currentAction := "Awaiting patches";
     Agent.lastResponseTime := 0%float; Agent.tokenUsage := 0%float; Agent.enabled := true |}
].

(** [mockLogs], with [now] standing for the value of [Date.now()] when the
    module is loaded (the quotation marks inside the last message are left
    out). *)
Definition mockLogs (now : Js.Date) : list LogEntry.t := [
  {| LogEntry.id := "l1"; LogEntry.timestamp := now;
     LogEntry.severity := LogSeverity.info; LogEntry.agent := Some "Backend Agent";
     LogEntry.message := "Starting endpoint generation for /api/auth/login";
     LogEntry.context := None |};
  {| LogEntry.id := "l2"; LogEntry.timestamp := (now - 5000)%Z;
     LogEntry.severity := LogSeverity.info; LogEntry.agent := Some "Architect";
     LogEntry.message := "Task breakdown complete: 4 subtasks identified";
     LogEntry.context := None |};
  {| LogEntry.id := "l3"; LogEntry.timestamp := (now - 12000)%Z;
     LogEntry.severity := LogSeverity.warning; LogEntry.agent := Some "File Patcher";
     LogEntry.message := "File src/api/auth.ts already exists, creating backup";
     LogEntry.context := None |};
  {| LogEntry.id := "l4"; LogEntry.timestamp := (now - 20000)%Z;
     LogEntry.severity := LogSeverity.info; LogEntry.agent := Some "Frontend Agent";
     LogEntry.message := "Waiting for backend schema definition";
     LogEntry.context := None |};
  {| LogEntry.id := "l5"; LogEntry.timestamp := (now - 35000)%Z;
     LogEntry.severity := LogSeverity.error; LogEntry.agent := Some "Verifier";
     LogEntry.message := "Type check failed: Property token missing in type";
     LogEntry.context := None |}
].

#[warnings="-inexact-float"]
Definition mockProject (now : Js.Date) : Project.t :=
  {| Project.id := "1";
     Project.name := "neuron-core";
     Project.localPath := "/home/dev/projects/neuron-core";
     Project.gitBranch := "feature/multi-agent";
     Project.workspaceMode := WorkspaceMode.safe;
     Project.coreStatus := CoreStatus.running;
     Project.activeTask := Some
       {| Task.id := "t1";
          Task.name := "Implement User Authentication";
          Task.description := "Add JWT-based authentication with refresh tokens";
          Task.status := TaskStatus.implementing;
          Task.triggerSource := TriggerSource.ui;
          Task.agents := ["Backend Agent"; "Frontend Agent"; "File Patcher"];
          Task.filesTouched :=
            ["src/api/auth.ts"; "src/components/Login.tsx"; "src/hooks/useAuth.ts"];
          Task.timeElapsed := 127%float;
          Task.startedAt := (now - 127000)%Z;
          Task.completedAt := None |};
     Project.lastActiveAt := now |}.

Definition mockFileChanges : list FileChange.t := [
  {| FileChange.path := "src/api/auth.ts"; FileChange.type := FileChangeType.modified;
     FileChange.isWorkspace := true; FileChange.diff := Some "+export const login = async..." |};
  {| FileChange.path := "src/components/Login.tsx"; FileChange.type := FileChangeType.created;
     FileChange.isWorkspace := true; FileChange.diff := None |};
  {| FileChange.path := "src/hooks/useAuth.ts"; FileChange.type := FileChangeType.created;
     FileChange.isWorkspace := true; FileChange.diff := None |};
  {| FileChange.path := "package.json"; FileChange.type := FileChangeType.skipped;
     FileChange.isWorkspace := false; FileChange.diff := None |}
].

#[warnings="-inexact-float"]
Definition mockMetrics : UsageMetrics.t :=
  {| UsageMetrics.tokensUsed := 12847%float;
     UsageMetrics.apiCalls := 23%float;
     UsageMetrics.estimatedCost := 0.38%float;
     UsageMetrics.avgTaskTime := 145%float;
     UsageMetrics.agentFailureRate := 0.02%float;
     UsageMetrics.retryCount := 1%float |}.

End Context.

(* ===================================================================== *)
(** ** The log page, [pages/Logs.tsx] *)
(* ===================================================================== *)

Module LogsPage.

(** The filter state, of type [LogSeverity | 'all']. *)
Inductive Filter : Set :=
| all
| severity (s : LogSeverity.t).

Definition filteredLogs (filter : Filter) (logs : list LogEntry.t) : list LogEntry.t :=
  match filter with
  | all => logs
  | severity sev => base.filter (λ l, LogEntry.severity l = sev) logs
  end.

(** The buttons of the filter bar. *)
Definition severities : list Filter :=
  [all; severity LogSeverity.info; severity LogSeverity.warning;
   severity LogSeverity.error; severity LogSeverity.debug].

(** The count shown in the badge of a severity button. *)
Definition badgeCount (sev : LogSeverity.t) (logs : list LogEntry.t) : nat :=
  length (base.filter (λ l, LogEntry.severity l = sev) logs).

End LogsPage.


(* ===================================================================== *)
(** ** Concrete inputs used in the examples below *)
(* ===================================================================== *)

Module Examples.

(** The provider's initial store, for a given value of [Date.now()]. *)
Definition initialStore (now : Js.Date) : Context.Store :=
  {| Context.agents := Context.mockAgents;
     Context.tasks :=
       match Project.activeTask (Context.mockProject now) with
       | Some task => [task]
       | None => []
       end;
     Context.activeProject := Some (Context.mockProject now);
     Context.logs := Context.mockLogs now;
     Context.fileChanges := Context.mockFileChanges;
     Context.metrics := Context.mockMetrics |}.

(** The store after the verifier (agent 6) has failed. *)
Definition failedVerifier : Agent.t :=
  {| Agent.id := "6"; Agent.name := "Verifier"; Agent.type := AgentType.verifier;
     Agent.status := AgentStatus.failed; Agent.currentAction := "Type check failed";
     Agent.lastResponseTime := 0%float; Agent.tokenUsage := 0%float; Agent.enabled := true |}.

Definition storeWithFailure : Context.Store :=
  Context.setAgents (λ prev, (take 5 prev ++ [failedVerifier])%list) (initialStore 0%Z).

End Examples.


(* ===================================================================== *)
(** ** The polling dashboard, [App.jsx] *)
(* ===================================================================== *)

Module Dashboard.

(** *** Response bodies

    The bodies are taken to be JSON objects of the shapes the component
    consumes; a field that is missing or [null] is [None]. *)

Module Feature.
Record t : Set := {
  feature : option string;
  files : option (list string);
  timestamp : option string;
}.
End Feature.

Module Metrics.
Record t : Set := {
  tokensUsed : Js.number;
  apiCalls : Js.number;
  estimatedCost : Js.number;
  avgTaskTime : Js.number;
  agentFailureRate : Js.number;
}.
End Metrics.

Module ProjectRef.
Record t : Set := {
  path : option string;
  name : option string;
}.
End ProjectRef.

Module AgentInfo.
Record t : Set := {
  name : option string;
  status : option string;
  currentAction : option string;
}.
End AgentInfo.

(** Body of [/dashboard-state]. *)
Module StateData.
Record t : Set := {
  status : option string;
  has_project : option bool;
  project : option ProjectRef.t;
  features : option (list Feature.t);
  metrics : option Metrics.t;
}.
End StateData.

(** Body of [/agents/status]. *)
Module AgentsData.
Record t : Set := { agents : option (list AgentInfo.t) }.
End AgentsData.

(** Body of [/list-projects]. *)
Module ProjectsData.
Record t : Set := { data : option (list ProjectRef.t) }.
End ProjectsData.

(** *** The view model *)

Module Activity.
Record t : Set := {
  id : nat;
  request : option string;
  status : string;
  filesChanged : nat;
  duration : string;
  timestamp : string;
  agents : list string;
  files : list string;
  safetyChecks : list string;
}.
End Activity.

(** The [data] state cell. *)
Record Data : Set := {
  hasProject : option bool;
  project : option ProjectRef.t;
  projects : list ProjectRef.t;
  metrics : Metrics.t;
  activities : list Activity.t;
  agents : list AgentInfo.t;
  systemStatus : string;
  lastAction : string;
}.

(** The argument of [useState] for [data]. *)
Definition initialData : Data :=
  {| hasProject := Some false;
     project := None;
     projects := [];
     metrics :=
       {| Metrics.tokensUsed := 0%float;
          Metrics.apiCalls := 0%float;
          Metrics.estimatedCost := 0%float;
          Metrics.avgTaskTime := 0%float;
          Metrics.agentFailureRate := 0%float |};
     activities := [];
     agents := [];
     systemStatus := "offline";
     lastAction := "Never" |}.

(** *** The backend as the poll sees it *)

(** A response: the [ok] flag and the body, [None] when the body is not
    JSON and [res.json()] rejects. *)
Record Response (A : Type) : Type := {
  ok : bool;
  body : option A;
}.
Arguments ok {A} _.
Arguments body {A} _.

(** What the four requests of one poll resolve to; [None] is a [fetch]
    promise that rejects (network failure). *)
Record Backend : Type := {
  dashboard_state : option (Response StateData.t);
  agents_status : option (Response AgentsData.t);
  list_projects : option (Response ProjectsData.t);
  health : option (Response unit);
}.

(** *** Effects: the state cell and exceptions

    A computation reads and writes the [data] cell and either returns a
    value or throws. A write made before a throw stays. *)

Inductive Error : Set :=
| TypeError (message : string)
| SyntaxError (message : string)
| ReferenceError (name : string).

Definition M (A : Type) : Type := Data → Data * (Error + A).

#[global] Instance M_ret : MRet M := λ A (a : A) (d : Data), (d, inr a).

#[global] Instance M_bind : MBind M := λ A B (k : A → M B) (m : M A) (d : Data),
  match m d with
  | (d', inr a) => k a d'
  | (d', inl e) => (d', inl e)
  end.

Definition throw {A : Type} (e : Error) : M A := λ d, (d, inl e).

(** [try { body } catch (err) { handler }], also [promise.catch(handler)]. *)
Definition try_catch {A : Type} (body : M A) (handler : Error → M A) : M A := λ d,
  match body d with
  | (d', inr a) => (d', inr a)
  | (d', inl e) => handler e d'
  end.

(** [setData(updater)]. *)
Definition setData (updater : Data → Data) : M unit := λ prev, (updater prev, inr tt).

(** The component declares neither [loading] nor [error] state: the
    identifiers [setLoading] and [setError] are unbound, and calling them
    throws a [ReferenceError]. *)
Definition setLoading (_ : bool) : M unit := throw (ReferenceError "setLoading").
Definition setError (_ : string) : M unit := throw (ReferenceError "setError").

(** [console.error] leaves the state alone. *)
Definition console_error (_ : string) (_ : Error) : M unit := mret tt.

(** [fetch(url)], for the request whose outcome is [r]. *)
Definition fetch {A : Type} (r : option (Response A)) : M (Response A) :=
  match r with
  | Some res => mret res
  | None => throw (TypeError "Failed to fetch")
  end.

(** [res.json()]. *)
Definition json {A : Type} (res : Response A) : M A :=
  match body res with
  | Some v => mret v
  | None => throw (SyntaxError "Unexpected token")
  end.

(** [Promise.all] of four promises: the four results when all fulfil, a
    rejection as soon as one rejects. Which rejection is reported when
    several reject depends on timing; the caller only logs it. *)
Definition Promise_all4 {A B C D : Type} (p1 : M A) (p2 : M B) (p3 : M C) (p4 : M D)
  : M (A * B * C * D) :=
  r1 ← p1; r2 ← p2; r3 ← p3; r4 ← p4; mret (r1, r2, r3, r4).

(** The callback of [stateData.features.map], for feature [f] at index [i]. *)
Definition toActivity (i : nat) (f : Feature.t) : Activity.t :=
  {| Activity.id := i;
     Activity.request := Feature.feature f;
     Activity.status := "success";
     Activity.filesChanged :=
       match Feature.files f with
       | Some files => length files
       | None => 0
       end;
     Activity.duration := "N/A";
     Activity.timestamp := Js.string_or (Feature.timestamp f) "Just now";
     Activity.agents := ["Orchestrator"];
     Activity.files := Js.object_or (Feature.files f) [];
     Activity.safetyChecks := ["Verified"] |}.

(** The [activities] constant of the success branch. *)
Definition activitiesOf (stateData : StateData.t) : list Activity.t :=
  match StateData.features stateData with
  | Some features => reverse (imap toActivity features)
  | None => []
  end.

Definition fetchState (backend : Backend) : M unit :=
  try_catch
    ('(stateRes, agentsRes, projectsRes, healthRes) ←
        Promise_all4
          (fetch (dashboard_state backend))
          (fetch (agents_status backend))
          (fetch (list_projects backend))
          (try_catch (fetch (health backend))
                     (λ _, mret {| ok := false; body := None |}));
     stateData ← json stateRes;
     agentsData ← json agentsRes;
     projectsData ← json projectsRes;
     (if bool_decide (StateData.status stateData = Some "success") then
        let activities := activitiesOf stateData in
        setData (λ prev,
          {| hasProject := StateData.has_project stateData;
             project := StateData.project stateData;
             projects := Js.object_or (ProjectsData.data projectsData) [];
             metrics := Js.object_or (StateData.metrics stateData) (metrics prev);
             activities := activities;
             agents := Js.object_or (AgentsData.agents agentsData) (agents prev);
             systemStatus := if ok healthRes then "online" else "offline";
             lastAction :=
               match activities with
               | first :: _ => Activity.timestamp first
               | [] => "Never"
               end |})
      else mret tt);;
     setLoading false)
    (λ err,
       console_error "Fetch error:" err;;
       setError "Could not connect to Neuron backend";;
       setLoading false).

(** The [data] cell after one poll. *)
Definition dataAfterPoll (backend : Backend) (prev : Data) : Data :=
  (fetchState backend prev).1.

(** A request has failed when its promise rejects or its body cannot be
    read as JSON. *)
Definition requestFailed {A : Type} (r : option (Response A)) : Prop :=
  r = None ∨ ∃ res : Response A, r = Some res ∧ body res = None.

(** The health check has failed when its promise rejects or the response
    is not [ok]. *)
Definition healthFailed (r : option (Response unit)) : Prop :=
  r = None ∨ ∃ res : Response unit, r = Some res ∧ ok res = false.

End Dashboard.


(* ===================================================================== *)
(** ** Concrete backends for the poll *)
(* ===================================================================== *)

Module PollExamples.
Import Dashboard.

(** The feature of the example scenario. *)
Definition addAuth : Feature.t :=
  {| Feature.feature := Some "Add auth";
     Feature.files := Some ["a.ts"; "b.ts"];
     Feature.timestamp := Some "2m ago" |}.

Definition stateBody : StateData.t :=
  {| StateData.status := Some "success";
     StateData.has_project := Some true;
     StateData.project :=
       Some {| ProjectRef.path := Some "/srv/app"; ProjectRef.name := Some "app" |};
     StateData.features := Some [addAuth];
     StateData.metrics := None |}.

Definition agentsBody : AgentsData.t :=
  {| AgentsData.agents :=
       Some [ {| AgentInfo.name := Some "Orchestrator";
                 AgentInfo.status := Some "active";
                 AgentInfo.currentAction := Some "Idle" |} ] |}.

Definition projectsBody : ProjectsData.t :=
  {| ProjectsData.data :=
       Some [ {| ProjectRef.path := Some "/srv/app"; ProjectRef.name := Some "app" |} ] |}.

(** Every request answers. *)
Definition allUp : Backend :=
  {| dashboard_state := Some {| ok := true; body := Some stateBody |};
     agents_status := Some {| ok := true; body := Some agentsBody |};
     list_projects := Some {| ok := true; body := Some projectsBody |};
     health := Some {| ok := true; body := Some tt |} |}.

(** Only the [/health] request is rejected. *)
Definition healthDown : Backend :=
  {| dashboard_state := dashboard_state allUp;
     agents_status := agents_status allUp;
     list_projects := list_projects allUp;
     health := None |}.

(** Only the [/agents/status] request is rejected. *)
Definition agentsDown : Backend :=
  {| dashboard_state := dashboard_state allUp;
     agents_status := None;
     list_projects := list_projects allUp;
     health := health allUp |}.


(** The view model after a first, fully successful poll. *)
Definition afterFirstPoll : Data := dataAfterPoll allUp initialData.

End PollExamples.


(* ===================================================================== *)
(** ** The login handlers of the test project, [authController.js] *)
(* ===================================================================== *)

Module Auth.

(** A document of [models/User.js]; [password] holds the stored hash. *)
Module User.
Record t : Set := {
  _id : string;
  email : string;
  password : string;
}.
End User.

(** [req.body]; a field the client did not send is [None]. *)
Module Body.
Record t : Set := {
  email : option string;
  password : option string;
}.
End Body.

(** The payload handed to [jwt.sign]. *)
Module Payload.
Record t : Set := {
  id : string;
  email : option string;
}.
End Payload.

(** The JSON document sent back. *)
Inductive Json : Set :=
| Message (message : string)
| Session (token : string) (user_id : string) (user_email : string).

(** The response: [res.status(code).json(doc)]; [res.json(doc)] alone
    sends status 200. *)
Record Res : Set := {
  statusCode : nat;
  json : Json;
}.

(** The token carried by a response, if any. *)
Definition tokenOf (res : Res) : option string :=
  match json res with
  | Session token _ _ => Some token
  | Message _ => None
  end.

(** An awaited call either throws or yields a value. *)
Inductive Result (A : Type) : Type :=
| Thrown
| Value (a : A).
Arguments Thrown {A}.
Arguments Value {A} _.

#[global] Instance Result_ret : MRet Result := λ A (a : A), Value a.

#[global] Instance Result_bind : MBind Result := λ A B (k : A → Result B) (m : Result A),
  match m with
  | Value a => k a
  | Thrown => Thrown
  end.

(** The collaborators of a handler: the user collection, the password
    check of the model and the token signer with the process secret. *)
Record Env : Type := {
  (** [User.findOne({ email })] *)
  findOne : option string → Result (option User.t);
  (** [user.comparePassword(password)], that is [bcrypt.compare] *)
  comparePassword : User.t → option string → Result bool;
  (** [jwt.sign(payload, process.env.JWT_SECRET, { expiresIn: '1h' })] *)
  sign : Payload.t → Result string;
}.

(** [src/Neuron-Core/testproject/src/controllers/authController.js] *)
Module NeuronCore.

(** [{ id: user._id }] *)
Definition payload (user : User.t) : Payload.t :=
  {| Payload.id := User._id user; Payload.email := None |}.

Definition login (env : Env) (body : Body.t) : Res :=
  let email := Body.email body in
  let password := Body.password body in
  if negb (Js.truthy email) || negb (Js.truthy password) then
    {| statusCode := 400; json := Message "Email and password are required." |}
  else
    match
      user ← findOne env email;
      match user with
      | None =>
          mret {| statusCode := 401;
                  json := Message "Unauthorized - user not found or password incorrect" |}
      | Some user =>
          isMatch ← comparePassword env user password;
          if negb isMatch then
            mret {| statusCode := 401;
                    json := Message "Unauthorized - user not found or password incorrect" |}
          else
            token ← sign env (payload user);
            mret {| statusCode := 200;
                    json := Session token (User._id user) (User.email user) |}
      end
    with
    | Value res => res
    | Thrown => {| statusCode := 500; json := Message "Server error" |}
    end.

End NeuronCore.

(** [src/testproject/src/controllers/authController.js] *)
Module Testproject.

(** [{ id: user._id, email: user.email }] *)
Definition payload (user : User.t) : Payload.t :=
  {| Payload.id := User._id user; Payload.email := Some (User.email user) |}.

Definition login (env : Env) (body : Body.t) : Res :=
  let email := Body.email body in
  let password := Body.password body in
  match
    user ← findOne env email;
    (* if (!user || !(await user.comparePassword(password))) *)
    match user with
    | None =>
        mret {| statusCode := 400; json := Message "Invalid email or password" |}
    | Some user =>
        isMatch ← comparePassword env user password;
        if negb isMatch then
          mret {| statusCode := 400; json := Message "Invalid email or password" |}
        else
          token ← sign env (payload user);
          mret {| statusCode := 200;
                  json := Session token (User._id user) (User.email user) |}
    end
  with
  | Value res => res
  | Thrown => {| statusCode := 500; json := Message "Internal server error" |}
  end.

End Testproject.

(** *** What the collaborators answer for a request *)

(** Both fields of the body are present and non-empty. *)
Definition credentialsPresent (body : Body.t) : bool :=
  Js.truthy (Body.email body) && Js.truthy (Body.password body).

(** [user] is registered under the given email and the password
    comparison succeeds. *)
Definition authenticates (env : Env) (body : Body.t) (user : User.t) : Prop :=
  findOne env (Body.email body) = Value (Some user) ∧
  comparePassword env user (Body.password body) = Value true.

(** No user is registered under the given email, or the comparison says
    the password is wrong. *)
Definition refused (env : Env) (body : Body.t) : Prop :=
  findOne env (Body.email body) = Value None ∨
  ∃ user : User.t,
    findOne env (Body.email body) = Value (Some user) ∧
    comparePassword env user (Body.password body) = Value false.

(** The lookup, the comparison or the signing of [payload user] throws. *)
Definition internalError (env : Env) (body : Body.t) (payload : User.t → Payload.t) : Prop :=
  findOne env (Body.email body) = Thrown ∨
  ∃ user : User.t,
    findOne env (Body.email body) = Value (Some user) ∧
    (comparePassword env user (Body.password body) = Thrown ∨
     (comparePassword env user (Body.password body) = Value true ∧
      sign env (payload user) = Thrown)).

(** *** Concrete collaborators *)

Definition alice : User.t :=
  {| User._id := "u1"; User.email := "alice@example.com"; User.password := "$2b$10$hash" |}.

(** One registered user, whose password is [wonderland]; signing works. *)
Definition oneUser : Env :=
  {| findOne := λ email,
       Value (if bool_decide (email = Some "alice@example.com") then Some alice else None);
     comparePassword := λ _ password, Value (bool_decide (password = Some "wonderland"));
     sign := λ payload, Value ("jwt:" +:+ Payload.id payload) |}.

(** The same collection in a process without [JWT_SECRET]: [jwt.sign] throws. *)
Definition noSecret : Env :=
  {| findOne := findOne oneUser;
     comparePassword := comparePassword oneUser;
     sign := λ _, Thrown |}.

Definition aliceLogin : Body.t :=
  {| Body.email := Some "alice@example.com"; Body.password := Some "wonderland" |}.

Definition strangerLogin : Body.t :=
  {| Body.email := Some "bob@example.com"; Body.password := Some "builder" |}.

End Auth.


(* ===================================================================== *)
(** ** More JavaScript primitives *)
(* ===================================================================== *)

Module JsArray.

(** [arr.sort(compare)] on a copy of [arr]. The language requires the
    sort to be stable and, for a comparator that is consistent, to return
    the elements in comparator order; a stable insertion sort computes
    that result. [insert x sorted] puts [x], which preceded every element
    of [sorted] in the input, in front of the first element that is not
    strictly before it. *)
Fixpoint insert {A : Type} (compare : A → A → Z) (x : A) (sorted : list A) : list A :=
  match sorted with
  | [] => [x]
  | y :: rest =>
      if bool_decide (0 < compare x y)%Z then y :: insert compare x rest
      else x :: y :: rest
  end.

Fixpoint sort {A : Type} (compare : A → A → Z) (arr : list A) : list A :=
  match arr with
  | [] => []
  | x :: rest => insert compare x (sort compare rest)
  end.

(** [s.split(sep)] for a one-character separator: the pieces between the
    occurrences of [sep], so always at least one piece. *)
Fixpoint split (sep : Ascii.ascii) (s : string) : list string :=
  match s with
  | EmptyString => [""]
  | String c rest =>
      if bool_decide (c = sep) then "" :: split sep rest
      else
        match split sep rest with
        | piece :: pieces => String c piece :: pieces
        | [] => [String c ""]
        end
  end.

(** [Math.floor(x)]: NaN, the infinities and the zeros are returned as
    they are, and so is a finite value without fractional bits. *)
Definition Math_floor (x : Js.number) : Js.number :=
  match Prim2SF x with
  | S754_finite sign mantissa exponent =>
      if bool_decide (0 ≤ exponent)%Z then x
      else
        let whole := Z.shiftr (Zpos mantissa) (- exponent) in
        let exact := bool_decide (Z.shiftl whole (- exponent) = Zpos mantissa) in
        if sign then
          Js.number_of_Z (- (if exact then whole else whole + 1))
        else if bool_decide (whole = 0)%Z then PrimFloat.zero
        else Js.number_of_Z whole
  | _ => x
  end.

End JsArray.

(* ===================================================================== *)
(** ** The stage circles of [TaskPipeline.tsx] *)
(* ===================================================================== *)

Module PipelineView.
Import Pipeline.

(** The arguments of a call [cn(...)] that are not [false], in order;
    [cn] itself, of [lib/utils], joins them into one class string. *)
Definition truthyClasses (classes : list (bool * string)) : list string :=
  (omap (λ c : bool * string, if c.1 then Some c.2 else None) classes).

(** The classes of the circle of the stage at [index]. *)
Definition circleClasses (st : TaskStatus) (index : nat) : list string :=
  truthyClasses [ (true, "w-12 h-12 rounded-full flex items-center justify-center border-2 transition-all");
       (isCompleted st index, "bg-primary border-primary");
       (isCurrent st index, "border-primary bg-primary/20 animate-pulse");
       (negb (isCompleted st index) && negb (isCurrent st index), "border-border bg-muted");
       (isFailed st && isActive st index, "border-destructive bg-destructive/20") ].

(** The icon drawn inside the circle of [stage] at [index]. *)
Definition circleIcon (st : TaskStatus) (index : nat) (stage : Stage) : Icon :=
  if isFailed st && isActive st index then XCircle else icon stage.

(** The class of the label under the circle. *)
Definition labelClass (st : TaskStatus) (index : nat) : string :=
  if isActive st index then "text-foreground" else "text-muted-foreground".

(** The colour of the progress line. *)
Definition lineClass (st : TaskStatus) : string :=
  if isFailed st then "bg-destructive" else "bg-primary".

End PipelineView.

(* ===================================================================== *)
(** ** The agent views: [pages/Agents.tsx], [RightPanel], [AgentGrid], [AgentCard] *)
(* ===================================================================== *)

Module AgentsView.

(** [pages/Agents.tsx] *)
Definition workingCount (agents : list Agent.t) : nat :=
  length (base.filter (λ a, Agent.status a = AgentStatus.working) agents).

Definition failedCount (agents : list Agent.t) : nat :=
  length (base.filter (λ a, Agent.status a = AgentStatus.failed) agents).

(** [RightPanel]: the header reads [workingAgents/totalAgents agents active]. *)
Definition workingAgents (agents : list Agent.t) : nat :=
  length (base.filter (λ a, Agent.status a = AgentStatus.working) agents).

Definition totalAgents (agents : list Agent.t) : nat := length agents.

(** [AgentGrid]: the comparator that shows failed agents first. *)
Definition failedFirst (a b : Agent.t) : Z :=
  if bool_decide (Agent.status a = AgentStatus.failed)
     && negb (bool_decide (Agent.status b = AgentStatus.failed)) then (-1)%Z
  else if bool_decide (Agent.status b = AgentStatus.failed)
          && negb (bool_decide (Agent.status a = AgentStatus.failed)) then 1%Z
  else 0%Z.

Definition sortedAgents (agents : list Agent.t) : list Agent.t :=
  JsArray.sort failedFirst agents.

(** [AgentCard], full size: the retry button is drawn for a failed agent
    only; the two buttons call the intents with the agent's id. *)
Definition showsRetry (agent : Agent.t) : bool :=
  bool_decide (Agent.status agent = AgentStatus.failed).

Definition clickRetry (agent : Agent.t) : Context.Intent :=
  Context.retryAgent (Agent.id agent).

Definition clickPower (agent : Agent.t) : Context.Intent :=
  Context.toggleAgentEnabled (Agent.id agent).

End AgentsView.

(* ===================================================================== *)
(** ** The simulated activity of [NeuronProvider] *)
(* ===================================================================== *)

Module Simulation.

(** The callback of the two-second interval. [random k] is the value of
    the [k]-th call of [Math.random]; the result carries the number of
    calls made so far. For a working agent the token increment is drawn
    first, the response time second. *)
Fixpoint tick_from (random : nat → Js.number) (calls : nat) (prev : list Agent.t)
  : list Agent.t * nat :=
  match prev with
  | [] => ([], calls)
  | agent :: rest =>
      if bool_decide (Agent.status agent = AgentStatus.working) then
        let updated :=
          {| Agent.id := Agent.id agent;
             Agent.name := Agent.name agent;
             Agent.type := Agent.type agent;
             Agent.status := Agent.status agent;
             Agent.currentAction := Agent.currentAction agent;
             Agent.lastResponseTime := PrimFloat.mul (random (S calls)) 2%float;
             Agent.tokenUsage :=
               PrimFloat.add (Agent.tokenUsage agent)
                 (JsArray.Math_floor (PrimFloat.mul (random calls) 50%float));
             Agent.enabled := Agent.enabled agent |} in
        let '(rest', calls') := tick_from random (S (S calls)) rest in
        (updated :: rest', calls')
      else
        let '(rest', calls') := tick_from random calls rest in
        (agent :: rest', calls')
  end.

(** One firing of the interval, as a write of the [agents] cell. *)
Definition tick (random : nat → Js.number) (s : Context.Store) : Context.Store :=
  Context.setAgents (λ prev, (tick_from random 0 prev).1) s.

End Simulation.

(* ===================================================================== *)
(** ** The console drawer, [BottomDrawer], and the empty state of [Logs.tsx] *)
(* ===================================================================== *)

Module LogsView.

(** [BottomDrawer]: the count in the toggle bar and on the Errors tab. *)
Definition errorCount (logs : list LogEntry.t) : nat :=
  length (base.filter (λ l, LogEntry.severity l = LogSeverity.error) logs).

(** The rows of the Errors tab. *)
Definition errorRows (logs : list LogEntry.t) : list LogEntry.t :=
  base.filter (λ l, LogEntry.severity l = LogSeverity.error) logs.

(** The label in the toggle bar, absent when there is no error. *)
Definition errorLabel (logs : list LogEntry.t) : option string :=
  if bool_decide (0 < errorCount logs) then
    Some (if bool_decide (1 < errorCount logs) then "errors" else "error")
  else None.

(** [Logs.tsx]: the page shows [No logs to display] instead of rows. *)
Definition showsEmptyState (filter : LogsPage.Filter) (logs : list LogEntry.t) : bool :=
  bool_decide (length (LogsPage.filteredLogs filter logs) = 0).

End LogsView.


(* ===================================================================== *)
(** ** The action handlers and the activity timeline of [App.jsx] *)
(* ===================================================================== *)

Module Actions.
Import Dashboard.

(** Body of [/set-project], [/analyze] and [/build-and-save]. The message
    is taken to be a string when present. *)
Module ActionResult.
Record t : Set := {
  status : option string;
  message : option string;
}.
End ActionResult.

(** What a handler does that can be seen from outside, in order. *)
Inductive Event : Set :=
| Prompt (text : string)
| Request (method : string) (path : string) (body : list (string * string))
| Alert (text : string)
| Poll.

#[global] Instance Event_eq_dec : EqDecision Event.
Proof. solve_decision. Defined.

(** ['Error: ' + result.message] *)
Definition errorText (result : ActionResult.t) : string :=
  "Error: " +:+ (match ActionResult.message result with
                 | Some message => message
                 | None => "undefined"
                 end).

Definition succeeded (result : ActionResult.t) : bool :=
  bool_decide (ActionResult.status result = Some "success").

(** The request was answered with a JSON body whose status is ['success']. *)
Definition replySucceeded (reply : option (Response ActionResult.t)) : bool :=
  match reply with
  | Some res =>
      match body res with
      | Some result => succeeded result
      | None => false
      end
  | None => false
  end.

(** [handleSetProject(projectPath)], the request being answered by [reply]. *)
Definition handleSetProject (reply : option (Response ActionResult.t))
    (projectPath : string) : list Event :=
  Request "POST" "/set-project" [("project_path", projectPath)] ::
  match reply with
  | Some res =>
      match body res with
      | Some result =>
          if succeeded result then [Poll] else [Alert (errorText result)]
      | None => [Alert "Failed to set project"]
      end
  | None => [Alert "Failed to set project"]
  end.

(** [handleAnalyze()] *)
Definition handleAnalyze (reply : option (Response ActionResult.t)) : list Event :=
  Request "GET" "/analyze" [] ::
  match reply with
  | Some res =>
      match body res with
      | Some result =>
          if succeeded result then [Alert "Project analyzed successfully!"; Poll]
          else [Alert (errorText result)]
      | None => [Alert "Failed to connect to backend"]
      end
  | None => [Alert "Failed to connect to backend"]
  end.

(** [handleAction(prompt)]; [answer] is what [window.prompt] returns when
    it is called, [None] for a cancelled dialog. *)
Definition handleAction (reply : option (Response ActionResult.t))
    (answer : option string) (prompt : option string) : list Event :=
  let asked := negb (Js.truthy prompt) in
  let feature := if asked then answer else prompt in
  (if asked then [Prompt "Enter feature or bug fix description:"] else []) ++
  match feature with
  | Some feature =>
      if bool_decide (feature = "") then []
      else
        Request "POST" "/build-and-save" [("feature", feature)] ::
        match reply with
        | Some res =>
            match body res with
            | Some result =>
                if succeeded result then [Alert "Action completed successfully!"; Poll]
                else [Alert (errorText result)]
            | None => [Alert "Failed to connect to backend"]
            end
        | None => [Alert "Failed to connect to backend"]
        end
  | None => []
  end.

(** The buttons of the action center and of the project card. *)
Definition clickBuildProject reply answer : list Event := handleAction reply answer None.
Definition clickFixBugs reply answer : list Event :=
  handleAction reply answer (Some "Fix all current lint errors and bugs").
Definition clickAddProjectPath (reply : option (Response ActionResult.t))
    (answer : option string) : list Event :=
  Prompt "Enter new project path:" ::
  (if Js.truthy answer then handleSetProject reply (Js.string_or answer "") else []).

(** The view model once the events of a handler have run their course:
    only a poll writes it. *)
Definition dataAfterEvents (backend : Backend) (events : list Event) (data : Data) : Data :=
  foldl (λ d event, match event with Poll => dataAfterPoll backend d | _ => d end)
        data events.

Definition requests (events : list Event) : list string :=
  omap (λ e, match e with Request _ path _ => Some path | _ => None end) events.

Definition alerts (events : list Event) : list string :=
  omap (λ e, match e with Alert text => Some text | _ => None end) events.

(** The timeline: [expandedActivity] and the click on a row header. *)
Definition clickActivity (expandedActivity : option nat) (activity : Activity.t)
  : option nat :=
  if bool_decide (expandedActivity = Some (Activity.id activity)) then None
  else Some (Activity.id activity).

Definition isExpanded (expandedActivity : option nat) (activity : Activity.t) : bool :=
  bool_decide (expandedActivity = Some (Activity.id activity)).

End Actions.

(* ===================================================================== *)
(** ** The token middleware and the login forms of the test projects *)
(* ===================================================================== *)

Module Session.
Import Auth.

(** What a middleware does with a request: answer it, or hand it on with
    [req.userId] set. *)
Inductive Outcome : Set :=
| Respond (res : Res)
| Next (userId : string).

(** [req.headers['authorization'] && req.headers['authorization'].split(' ')[1]]:
    [None] stands for [undefined]. *)
Definition headerToken (authorization : option string) : option string :=
  match authorization with
  | Some header =>
      if bool_decide (header = "") then Some ""
      else JsArray.split Ascii.Space header !! 1
  | None => None
  end.

(** [verifyToken]; [verify token] is [jwt.verify(token, process.env.JWT_SECRET, ...)],
    which hands the callback an error or the decoded payload. *)
Definition verifyToken (verify : string → Result Payload.t)
    (authorization : option string) : Outcome :=
  match headerToken authorization with
  | Some token =>
      if bool_decide (token = "") then
        Respond {| statusCode := 403; json := Message "No token provided!" |}
      else
        match verify token with
        | Thrown => Respond {| statusCode := 401; json := Message "Unauthorized!" |}
        | Value decoded => Next (Payload.id decoded)
        end
  | None => Respond {| statusCode := 403; json := Message "No token provided!" |}
  end.

(** A JSON object of strings, as sent by a form, and the field the server
    reads from it. *)
Fixpoint field (key : string) (object : list (string * string)) : option string :=
  match object with
  | [] => None
  | (k, v) :: rest => if bool_decide (k = key) then Some v else field key rest
  end.

(** [const { email, password } = req.body] *)
Definition parseBody (object : list (string * string)) : Body.t :=
  {| Body.email := field "email" object; Body.password := field "password" object |}.

(** What comes back to a form: no response at all (the request promise
    rejects with an error carrying [reason]), or a response. *)
Inductive Reply : Set :=
| NoResponse (reason : string)
| Replied (res : Res).

(** A status in the 2xx range. *)
Definition ok (res : Res) : bool :=
  bool_decide (200 ≤ statusCode res)%nat && bool_decide (statusCode res < 300)%nat.

(** [localStorage.setItem('token', data.token)] stores a string. *)
Definition storedToken (res : Res) : string :=
  match tokenOf res with
  | Some token => token
  | None => "undefined"
  end.

(** The state around a form: its [error] cell, the [token] item of the
    local storage and the page location. *)
Record FormState : Set := {
  error : string;
  token : option string;
  location : option string;
}.

(** The form of the Neuron-Core test project ([LoginForm], with axios). *)
Module LoginForm.

Definition requestBody (email password : string) : list (string * string) :=
  [("username", email); ("password", password)].

Definition handleSubmit (server : list (string * string) → Reply)
    (email password : string) (st : FormState) : FormState :=
  (* setError('') *)
  match server (requestBody email password) with
  | Replied res =>
      if ok res then
        {| error := ""; token := Some (storedToken res); location := Some "/dashboard" |}
      else if bool_decide (statusCode res = 401) then
        {| error := "Invalid email or password"; token := token st; location := location st |}
      else
        {| error := "An error occurred. Please try again.";
           token := token st; location := location st |}
  | NoResponse _ =>
      {| error := "An error occurred. Please try again.";
         token := token st; location := location st |}
  end.

End LoginForm.

(** The form of [src/testproject] ([components/Login.jsx], with fetch). *)
Module Login.

Definition requestBody (email password : string) : list (string * string) :=
  [("email", email); ("password", password)].

Definition handleSubmit (server : list (string * string) → Reply)
    (email password : string) (st : FormState) : FormState :=
  match server (requestBody email password) with
  | Replied res =>
      if negb (ok res) then
        {| error := "Invalid email or password"; token := token st; location := location st |}
      else
        {| error := error st; token := Some (storedToken res); location := location st |}
  | NoResponse reason =>
      {| error := reason; token := token st; location := location st |}
  end.

End Login.

(** A verifier that knows the one token issued to [Auth.alice]. *)
Definition exampleVerify (token : string) : Result Payload.t :=
  if bool_decide (token = "jwt:u1")
  then Value {| Payload.id := "u1"; Payload.email := None |}
  else Thrown.

(** The handlers as servers of the forms. *)
Definition neuronCoreServer (env : Env) (object : list (string * string)) : Reply :=
  Replied (NeuronCore.login env (parseBody object)).

Definition testprojectServer (env : Env) (object : list (string * string)) : Reply :=
  Replied (Testproject.login env (parseBody object)).

End Session.


(* ===================================================================== *)
(** ** The project header, [components/project/ProjectStatus.tsx] *)
(* ===================================================================== *)

Module ProjectView.

#[global] Instance CoreStatus_eq_dec : EqDecision CoreStatus.t.
Proof. solve_decision. Defined.

#[global] Instance WorkspaceMode_eq_dec : EqDecision WorkspaceMode.t.
Proof. solve_decision. Defined.

(** The four buttons of the control row. *)
Inductive Control : Set := StartTask | Pause | Abort | Retry.

(** The [disabled] attribute of a button. *)
Definition disabled (project : Project.t) (control : Control) : bool :=
  match control with
  | StartTask => bool_decide (Project.coreStatus project = CoreStatus.running)
  | Pause | Abort => negb (bool_decide (Project.coreStatus project = CoreStatus.running))
  | Retry => false
  end.

(** The [onClick] handler of a button; the Retry button has none. *)
Definition onClick (control : Control) : option Context.Intent :=
  match control with
  | StartTask => Some Context.startTask
  | Pause => Some Context.pauseTask
  | Abort => Some Context.abortTask
  | Retry => None
  end.

(** The variant of the workspace-mode badge. *)
Definition modeBadge (project : Project.t) : string :=
  if bool_decide (Project.workspaceMode project = WorkspaceMode.safe)
  then "secondary" else "destructive".

End ProjectView.


(* ===================================================================== *)
(** * Theorems *)
(* ===================================================================== *)

Section PipelineFacts.
Import TaskStatus Pipeline.

(** C1. For every status that appears in the ordered list of the six
    stages, [stageIndex] returns the zero-based position of that status
    in the list (so a value from 0 to 5), and for [failed] it returns
    [-1]. The mapper is a function of the status alone. *)
Theorem stageIndex_position :
  length stages = 6 ∧
  (∀ (i : nat) (s : Stage),
      stages !! i = Some s →
      stageIndex (status s) = Z.of_nat i ∧ (0 ≤ stageIndex (status s) ≤ 5)%Z) ∧
  stageIndex failed = (-1)%Z.
Proof.
  split; [reflexivity|]. split; [|reflexivity].
  intros i s Hi.
  do 6 (destruct i as [|i]; [injection Hi as <-; vm_compute; intuition discriminate|]).
  discriminate Hi.
Qed.

Lemma stageIndex_position_witness :
  stages !! 2 = Some {| status := implementing; label := "Implementing"; icon := Code |} ∧
  stageIndex implementing = 2%Z.
Proof.
  split; [reflexivity|].
  exact (proj1 (proj1 (proj2 stageIndex_position) 2%nat _ eq_refl)).
Defined.

(** C5. The fill percentage of the progress line is
    [max(0, currentIndex / (numStages - 1) * 100)] with six stages: it is
    exactly 0, 20, 40, 60, 80 and 100 for the six stages in order and 0
    for a failed task, that is the exact value of
    [max(0, currentIndex * 100 / 5)]. For every task status it lies
    between 0 and 100, a status with a larger stage index never has a
    smaller fill percentage, and among the stages a larger index has a
    strictly larger one. *)
Theorem progressWidth_bounded_monotone :
  length stages = 6 ∧
  (∀ st : TaskStatus,
      progressWidth st =
        Js.Math_max 0%float
          (PrimFloat.mul (PrimFloat.div (Js.number_of_Z (stageIndex st)) 5%float)
                         100%float) ∧
      progressWidth st =
        match st with
        | received => 0%float
        | analyzing => 20%float
        | implementing => 40%float
        | patching => 60%float
        | verifying => 80%float
        | completed => 100%float
        | failed => 0%float
        end ∧
      progressWidth st =
        Js.number_of_Z
          (Z.max 0 (stageIndex st * 100 / (Z.of_nat (length stages) - 1))) ∧
      PrimFloat.leb 0%float (progressWidth st) = true ∧
      PrimFloat.leb (progressWidth st) 100%float = true) ∧
  (∀ st1 st2 : TaskStatus,
      (stageIndex st1 ≤ stageIndex st2)%Z →
      PrimFloat.leb (progressWidth st1) (progressWidth st2) = true) ∧
  (∀ st1 st2 : TaskStatus,
      (0 ≤ stageIndex st1 < stageIndex st2)%Z →
      PrimFloat.ltb (progressWidth st1) (progressWidth st2) = true) ∧
  (∀ currentStage : Z,
      (-1 ≤ currentStage ≤ 5)%Z →
      fillPercent currentStage = Js.number_of_Z (Z.max 0 (20 * currentStage)) ∧
      PrimFloat.leb 0%float (fillPercent currentStage) = true ∧
      PrimFloat.leb (fillPercent currentStage) 100%float = true).
Proof.
  split; [reflexivity|]. split; [|split; [|split]].
  - intros st; destruct st; repeat split; reflexivity.
  - intros st1 st2; destruct st1, st2; vm_compute; intros H;
      first [reflexivity | exfalso; apply H; reflexivity].
  - intros st1 st2; destruct st1, st2; vm_compute; intros [H1 H2];
      first [reflexivity | exfalso; apply H1; reflexivity | discriminate H2].
  - intros i Hi.
    assert (i = -1 ∨ i = 0 ∨ i = 1 ∨ i = 2 ∨ i = 3 ∨ i = 4 ∨ i = 5)%Z
      as [->|[->|[->|[->|[->|[->| ->]]]]]] by lia;
      repeat split; reflexivity.
Qed.

Lemma progressWidth_bounded_monotone_witness :
  (stageIndex analyzing ≤ stageIndex patching)%Z ∧
  PrimFloat.leb (progressWidth analyzing) (progressWidth patching) = true ∧
  progressWidth patching = 60%float ∧
  PrimFloat.ltb (progressWidth analyzing) (progressWidth patching) = true ∧
  fillPercent 5 = 100%float.
Proof.
  split; [vm_compute; discriminate|].
  split; [|split; [|split]].
  - apply (proj1 (proj2 (proj2 progressWidth_bounded_monotone)) analyzing patching).
    vm_compute; discriminate.
  - exact (proj1 (proj2 (proj1 (proj2 progressWidth_bounded_monotone) patching))).
  - apply (proj1 (proj2 (proj2 (proj2 progressWidth_bounded_monotone))) analyzing patching).
    split; [vm_compute; discriminate|reflexivity].
  - apply (proj2 (proj2 (proj2 (proj2 progressWidth_bounded_monotone))) 5%Z).
    split; vm_compute; discriminate.
Defined.

End PipelineFacts.

Section ContextFacts.
Import Context.

(** The agent the [toggleAgentEnabled] callback returns for [agent]. *)
Lemma toggleAgentEnabled_lookup (agentId : string) (s : Store) (i : nat) :
  agents (toggleAgentEnabled agentId s).1 !! i =
    (λ agent,
       if bool_decide (Agent.id agent = agentId)
       then {| Agent.id := Agent.id agent; Agent.name := Agent.name agent;
               Agent.type := Agent.type agent; Agent.status := Agent.status agent;
               Agent.currentAction := Agent.currentAction agent;
               Agent.lastResponseTime := Agent.lastResponseTime agent;
               Agent.tokenUsage := Agent.tokenUsage agent;
               Agent.enabled := negb (Agent.enabled agent) |}
       else agent) <$> agents s !! i.
Proof. simpl. apply list_lookup_fmap. Qed.

(** The agent the [retryAgent] callback returns for [agent]. *)
Lemma retryAgent_lookup (agentId : string) (s : Store) (i : nat) :
  agents (retryAgent agentId s).1 !! i =
    (λ agent,
       if bool_decide (Agent.id agent = agentId)
          && bool_decide (Agent.status agent = AgentStatus.failed)
       then {| Agent.id := Agent.id agent; Agent.name := Agent.name agent;
               Agent.type := Agent.type agent; Agent.status := AgentStatus.working;
               Agent.currentAction := "Retrying...";
               Agent.lastResponseTime := Agent.lastResponseTime agent;
               Agent.tokenUsage := Agent.tokenUsage agent;
               Agent.enabled := Agent.enabled agent |}
       else agent) <$> agents s !! i.
Proof. simpl. apply list_lookup_fmap. Qed.

(** Two stores with the same cells are equal. *)
Lemma Store_eq (s1 s2 : Store) :
  agents s1 = agents s2 → tasks s1 = tasks s2 →
  activeProject s1 = activeProject s2 → logs s1 = logs s2 →
  fileChanges s1 = fileChanges s2 → metrics s1 = metrics s2 → s1 = s2.
Proof. destruct s1, s2; simpl; congruence. Qed.

(** C6. For every agents list and agent id, [toggleAgentEnabled] yields a
    list of the same length in which each agent with that id has its
    [enabled] flag negated and is otherwise as before, every other agent
    is as before and the rest of the store is untouched; no backend
    request is made; and toggling the same id twice gives back the
    original store. *)
Theorem toggleAgentEnabled_flips_involutive (agentId : string) (s : Store) :
  let s1 := (toggleAgentEnabled agentId s).1 in
  length (agents s1) = length (agents s) ∧
  (∀ (i : nat) (agent : Agent.t),
      agents s !! i = Some agent →
      ∃ agent' : Agent.t,
        agents s1 !! i = Some agent' ∧
        Agent.id agent' = Agent.id agent ∧
        Agent.name agent' = Agent.name agent ∧
        Agent.type agent' = Agent.type agent ∧
        Agent.status agent' = Agent.status agent ∧
        Agent.currentAction agent' = Agent.currentAction agent ∧
        Agent.lastResponseTime agent' = Agent.lastResponseTime agent ∧
        Agent.tokenUsage agent' = Agent.tokenUsage agent ∧
        Agent.enabled agent' =
          (if bool_decide (Agent.id agent = agentId)
           then negb (Agent.enabled agent) else Agent.enabled agent)) ∧
  (tasks s1 = tasks s ∧ activeProject s1 = activeProject s ∧ logs s1 = logs s ∧
   fileChanges s1 = fileChanges s ∧ metrics s1 = metrics s) ∧
  (toggleAgentEnabled agentId s).2 = [] ∧
  toggleAgentEnabled agentId s1 = (s, []).
Proof.
  intros s1. split; [apply length_fmap|]. split; [|split; [done|split; [done|]]].
  - intros i agent Hi. subst s1. rewrite toggleAgentEnabled_lookup, Hi. simpl.
    eexists; split; [reflexivity|].
    destruct (bool_decide (Agent.id agent = agentId)); done.
  - unfold toggleAgentEnabled at 1. f_equal.
    apply Store_eq; try done. subst s1. simpl.
    rewrite <- list_fmap_compose. rewrite <- (list_fmap_id (agents s)) at 2.
    apply list_fmap_ext. intros _ agent _. simpl.
    destruct agent as [aid nm ty st act lrt tu en]; simpl.
    destruct (bool_decide (aid = agentId)) eqn:E; simpl; [|by rewrite E].
    rewrite E. by rewrite negb_involutive.
Qed.

#[warnings="-inexact-float"]
Lemma toggleAgentEnabled_flips_involutive_witness :
  mockAgents !! 2 = Some
    {| Agent.id := "3"; Agent.name := "Frontend Agent"; Agent.type := AgentType.frontend;
       Agent.status := AgentStatus.waiting; Agent.currentAction := "Waiting for backend schema";
       Agent.lastResponseTime := 0.8%float; Agent.tokenUsage := 2103%float;
       Agent.enabled := true |} ∧
  (Agent.enabled <$>
     agents (toggleAgentEnabled "3" (Examples.initialStore 0%Z)).1 !! 2) = Some false.
Proof.
  split; [reflexivity|].
  destruct (proj1 (proj2 (toggleAgentEnabled_flips_involutive "3" (Examples.initialStore 0%Z)))
              2 _ eq_refl) as (agent' & -> & _ & _ & _ & _ & _ & _ & _ & He).
  simpl. rewrite He. reflexivity.
Defined.

(** C7. For every agents list and id, an agent with that id whose status
    is [failed] is moved by [retryAgent] to status [working] with the
    placeholder action ['Retrying...']; only the [agents] cell of the
    store is written and no backend request is made. *)
Theorem retryAgent_failed_to_working
    (agentId : string) (s : Store) (i : nat) (agent : Agent.t) :
  agents s !! i = Some agent →
  Agent.id agent = agentId →
  Agent.status agent = AgentStatus.failed →
  let s1 := (retryAgent agentId s).1 in
  (∃ agent' : Agent.t,
      agents s1 !! i = Some agent' ∧
      Agent.id agent' = agentId ∧
      Agent.status agent' = AgentStatus.working ∧
      Agent.currentAction agent' = "Retrying...") ∧
  (tasks s1 = tasks s ∧ activeProject s1 = activeProject s ∧ logs s1 = logs s ∧
   fileChanges s1 = fileChanges s ∧ metrics s1 = metrics s) ∧
  (retryAgent agentId s).2 = [].
Proof.
  intros Hi Hid Hst s1. split; [|done].
  subst s1. rewrite retryAgent_lookup, Hi. simpl.
  rewrite !bool_decide_true by done. simpl.
  eexists. split; [reflexivity|]. done.
Qed.

Lemma retryAgent_failed_to_working_witness :
  agents Examples.storeWithFailure !! 5 = Some Examples.failedVerifier ∧
  (Agent.status <$> agents (retryAgent "6" Examples.storeWithFailure).1 !! 5)
    = Some AgentStatus.working ∧
  (Agent.currentAction <$> agents (retryAgent "6" Examples.storeWithFailure).1 !! 5)
    = Some "Retrying...".
Proof.
  split; [reflexivity|].
  destruct (retryAgent_failed_to_working "6" Examples.storeWithFailure 5
              Examples.failedVerifier eq_refl eq_refl eq_refl)
    as [(agent' & Hl & _ & Hs & Ha) _].
  rewrite Hl. simpl. rewrite Hs, Ha. split; reflexivity.
Defined.

(** C10. For every agents list and id: when no agent has that id, or the
    agents that have it are not [failed], [retryAgent] leaves the whole
    store, hence the whole agents list, as it was. In every case the
    result has the same length, an agent that is not both matching and
    [failed] is returned as it was, and a matching failed agent keeps
    every field other than [status] and [currentAction]. *)
Theorem retryAgent_frame (agentId : string) (s : Store) :
  let s1 := (retryAgent agentId s).1 in
  ((∀ agent : Agent.t,
       agent ∈ agents s → Agent.id agent = agentId →
       Agent.status agent ≠ AgentStatus.failed) →
   s1 = s) ∧
  length (agents s1) = length (agents s) ∧
  (∀ (i : nat) (agent : Agent.t),
      agents s !! i = Some agent →
      ∃ agent' : Agent.t,
        agents s1 !! i = Some agent' ∧
        Agent.id agent' = Agent.id agent ∧
        Agent.name agent' = Agent.name agent ∧
        Agent.type agent' = Agent.type agent ∧
        Agent.lastResponseTime agent' = Agent.lastResponseTime agent ∧
        Agent.tokenUsage agent' = Agent.tokenUsage agent ∧
        Agent.enabled agent' = Agent.enabled agent ∧
        (¬ (Agent.id agent = agentId ∧ Agent.status agent = AgentStatus.failed) →
         agent' = agent)).
Proof.
  intros s1. split; [|split; [apply length_fmap|]].
  - intros Hnone. apply Store_eq; try done. subst s1. simpl.
    rewrite <- (list_fmap_id (agents s)) at 2.
    apply list_fmap_ext. intros i agent Hi. simpl.
    destruct (decide (Agent.id agent = agentId)) as [Hid|Hid].
    + rewrite (bool_decide_false (Agent.status agent = _)).
      * by rewrite andb_false_r.
      * apply Hnone; [|done]. by eapply list_elem_of_lookup_2.
    + by rewrite (bool_decide_false _ Hid).
  - intros i agent Hi. subst s1. rewrite retryAgent_lookup, Hi. simpl.
    eexists. split; [reflexivity|].
    destruct (decide (Agent.id agent = agentId)) as [Hid|Hid];
      destruct (decide (Agent.status agent = AgentStatus.failed)) as [Hst|Hst].
    + rewrite !bool_decide_true by done. simpl. repeat split; try done.
      intros []. by split.
    + rewrite (bool_decide_false _ Hst), andb_false_r. done.
    + rewrite (bool_decide_false _ Hid). done.
    + rewrite (bool_decide_false _ Hid). done.
Qed.

Lemma retryAgent_frame_witness :
  (∀ agent : Agent.t,
      agent ∈ mockAgents → Agent.id agent = "2" →
      Agent.status agent ≠ AgentStatus.failed) ∧
  (retryAgent "2" (Examples.initialStore 0%Z)).1 = Examples.initialStore 0%Z.
Proof.
  assert (H : ∀ agent : Agent.t,
             agent ∈ agents (Examples.initialStore 0%Z) → Agent.id agent = "2" →
             Agent.status agent ≠ AgentStatus.failed).
  { intros agent Hin _. simpl in Hin. unfold mockAgents in Hin.
    repeat (apply elem_of_cons in Hin as [->|Hin]; [discriminate|]).
    by apply elem_of_nil in Hin. }
  split; [exact H|].
  exact (proj1 (retryAgent_frame "2" (Examples.initialStore 0%Z)) H).
Defined.

End ContextFacts.

Section LogsFacts.
Import LogsPage.

(** Filtering by a severity: the result is a sublist of the input, holds
    only entries of that severity, and contains every sublist of the
    input that holds only entries of that severity. *)
Lemma filteredLogs_severity (sev : LogSeverity.t) (logs : list LogEntry.t) :
  filteredLogs (severity sev) logs `sublist_of` logs ∧
  Forall (λ l, LogEntry.severity l = sev) (filteredLogs (severity sev) logs) ∧
  (∀ sub : list LogEntry.t,
      sub `sublist_of` logs → Forall (λ l, LogEntry.severity l = sev) sub →
      sub `sublist_of` filteredLogs (severity sev) logs).
Proof.
  simpl. split; [apply sublist_filter|]. split.
  - apply Forall_forall. intros l Hl. by apply list_elem_of_filter in Hl as [? _].
  - intros sub Hsub. induction Hsub as [|x l1 l2 _ IH|x l1 l2 _ IH]; intros Hall.
    + apply sublist_nil_l.
    + apply Forall_cons in Hall as [Hx Hall].
      rewrite filter_cons_True by done. apply sublist_skip. by apply IH.
    + rewrite filter_cons. destruct (decide (LogEntry.severity x = sev));
        [apply sublist_cons|]; by apply IH.
Qed.

(** C8. For every list of log entries, the filter ['error'] returns
    exactly the entries of severity [error] in their original order (it
    is the largest sublist of the input all of whose entries have that
    severity, and an entry is in it exactly when it is an input entry of
    severity [error]), and the filter ['all'] returns the input list. *)
Theorem filteredLogs_error_all (logs : list LogEntry.t) :
  filteredLogs all logs = logs ∧
  filteredLogs (severity LogSeverity.error) logs `sublist_of` logs ∧
  Forall (λ l, LogEntry.severity l = LogSeverity.error)
         (filteredLogs (severity LogSeverity.error) logs) ∧
  (∀ sub : list LogEntry.t,
      sub `sublist_of` logs →
      Forall (λ l, LogEntry.severity l = LogSeverity.error) sub →
      sub `sublist_of` filteredLogs (severity LogSeverity.error) logs) ∧
  (∀ l : LogEntry.t,
      l ∈ filteredLogs (severity LogSeverity.error) logs ↔
      l ∈ logs ∧ LogEntry.severity l = LogSeverity.error).
Proof.
  split; [reflexivity|].
  destruct (filteredLogs_severity LogSeverity.error logs) as (H1 & H2 & H3).
  split; [exact H1|]. split; [exact H2|]. split; [exact H3|].
  intros l. simpl. rewrite list_elem_of_filter. tauto.
Qed.

Lemma filteredLogs_error_all_witness :
  filteredLogs (severity LogSeverity.error) (Context.mockLogs 0%Z)
    = drop 4 (Context.mockLogs 0%Z) ∧
  drop 4 (Context.mockLogs 0%Z)
    `sublist_of` filteredLogs (severity LogSeverity.error) (Context.mockLogs 0%Z).
Proof.
  split; [reflexivity|].
  apply (proj1 (proj2 (proj2 (proj2 (filteredLogs_error_all (Context.mockLogs 0%Z)))))).
  - apply sublist_drop.
  - repeat constructor.
Defined.

End LogsFacts.

Section DashboardFacts.
Import Dashboard.

(** What a poll does to the state cell when the three data requests
    deliver bodies and the dashboard state reports success. *)
Lemma fetchState_success (backend : Backend) (prev : Data)
    (stateRes : Response StateData.t) (agentsRes : Response AgentsData.t)
    (projectsRes : Response ProjectsData.t)
    (stateData : StateData.t) (agentsData : AgentsData.t) (projectsData : ProjectsData.t) :
  dashboard_state backend = Some stateRes → body stateRes = Some stateData →
  agents_status backend = Some agentsRes → body agentsRes = Some agentsData →
  list_projects backend = Some projectsRes → body projectsRes = Some projectsData →
  StateData.status stateData = Some "success" →
  dataAfterPoll backend prev =
    {| hasProject := StateData.has_project stateData;
       project := StateData.project stateData;
       projects := Js.object_or (ProjectsData.data projectsData) [];
       metrics := Js.object_or (StateData.metrics stateData) (metrics prev);
       activities := activitiesOf stateData;
       agents := Js.object_or (AgentsData.agents agentsData) (agents prev);
       systemStatus :=
         match health backend with
         | Some healthRes => if ok healthRes then "online" else "offline"
         | None => "offline"
         end;
       lastAction :=
         match activitiesOf stateData with
         | first :: _ => Activity.timestamp first
         | [] => "Never"
         end |}.
Proof.
  intros Hs Hsb Ha Hab Hp Hpb Hok.
  unfold dataAfterPoll, fetchState, try_catch, Promise_all4, fetch, json, setData,
    setLoading, setError, console_error, throw, mbind, mret, M_bind, M_ret.
  rewrite Hs, Ha, Hp. destruct (health backend) as [healthRes|]; simpl;
    rewrite Hsb, Hab, Hpb; simpl; rewrite (bool_decide_true _ Hok); reflexivity.
Qed.

(** C2. When the dashboard-state body has a status other than
    ['success'], or one of the three data requests ([/dashboard-state],
    [/agents/status], [/list-projects]) fails, the poll leaves the whole
    view model as it was. *)
Theorem fetchState_failure_retains_data (backend : Backend) (prev : Data) :
  requestFailed (dashboard_state backend) ∨
  requestFailed (agents_status backend) ∨
  requestFailed (list_projects backend) ∨
  (∃ (stateRes : Response StateData.t) (stateData : StateData.t),
      dashboard_state backend = Some stateRes ∧ body stateRes = Some stateData ∧
      StateData.status stateData ≠ Some "success") →
  dataAfterPoll backend prev = prev.
Proof.
  intros Hfail.
  unfold dataAfterPoll, fetchState, try_catch, Promise_all4, fetch, json, setData,
    setLoading, setError, console_error, throw, mbind, mret, M_bind, M_ret.
  destruct backend as [[[ok1 [sd|]]|] [[ok2 [ad|]]|] [[ok3 [pd|]]|] [[ok4 b4]|]];
    simpl in *; try reflexivity.
  all: destruct (bool_decide (StateData.status sd = Some "success")) eqn:E;
    [|reflexivity]; apply bool_decide_eq_true in E.
  all: exfalso;
    destruct Hfail as [[?|(?&?&?)]|[[?|(?&?&?)]|[[?|(?&?&?)]|(?&?&?&?&?)]]];
    simplify_eq/=; done.
Qed.

Lemma fetchState_failure_retains_data_witness :
  requestFailed (agents_status PollExamples.agentsDown) ∧
  dataAfterPoll PollExamples.agentsDown PollExamples.afterFirstPoll
    = PollExamples.afterFirstPoll.
Proof.
  split; [by left|].
  apply fetchState_failure_retains_data. right; left. by left.
Defined.

(** C2, as stated, fails: a failure of the [/health] request is a failure
    of one of the four combined requests, and the poll still replaces the
    view model. *)
Lemma fetchState_health_failure_updates :
  healthFailed (health PollExamples.healthDown) ∧
  dataAfterPoll PollExamples.healthDown initialData ≠ initialData ∧
  agents (dataAfterPoll PollExamples.healthDown initialData)
    = [ {| AgentInfo.name := Some "Orchestrator";
           AgentInfo.status := Some "active";
           AgentInfo.currentAction := Some "Idle" |} ] ∧
  lastAction (dataAfterPoll PollExamples.healthDown initialData) = "2m ago".
Proof.
  split; [by left|]. split; [|split; reflexivity].
  intros Heq. apply (f_equal lastAction) in Heq. vm_compute in Heq. discriminate Heq.
Qed.




(** C4. For every dashboard-state body, the [activities] list of the
    success branch is the features list mapped to display records and
    reversed (empty when [features] is absent): it has one record per
    feature, the record of the feature at index [i] sits at the mirrored
    position, its [filesChanged] is the length of the feature's [files]
    (0 when [files] is absent), its [agents] is [["Orchestrator"]] and its
    [safetyChecks] is [["Verified"]]. For the single feature
    [{feature:"Add auth", files:["a.ts","b.ts"], timestamp:"2m ago"}] the
    list has exactly one entry, with [filesChanged = 2]. This list is the
    [activities] field of the view model after a successful poll. *)
Theorem fetchState_activities (stateData : StateData.t) :
  let features := Js.object_or (StateData.features stateData) [] in
  let acts := activitiesOf stateData in
  acts = reverse (imap toActivity features) ∧
  length acts = length features ∧
  (∀ (i : nat) (f : Feature.t),
      features !! i = Some f →
      ∃ a : Activity.t,
        acts !! (length features - S i) = Some a ∧
        Activity.id a = i ∧
        Activity.request a = Feature.feature f ∧
        Activity.filesChanged a =
          match Feature.files f with
          | Some files => length files
          | None => 0
          end ∧
        Activity.agents a = ["Orchestrator"] ∧
        Activity.safetyChecks a = ["Verified"]) ∧
  (StateData.features stateData =
     Some [ {| Feature.feature := Some "Add auth";
               Feature.files := Some ["a.ts"; "b.ts"];
               Feature.timestamp := Some "2m ago" |} ] →
   ∃ a : Activity.t,
     acts = [a] ∧ Activity.filesChanged a = 2 ∧
     Activity.agents a = ["Orchestrator"] ∧ Activity.safetyChecks a = ["Verified"]) ∧
  (∀ (backend : Backend) (prev : Data)
     (stateRes : Response StateData.t) (agentsRes : Response AgentsData.t)
     (projectsRes : Response ProjectsData.t)
     (agentsData : AgentsData.t) (projectsData : ProjectsData.t),
      dashboard_state backend = Some stateRes → body stateRes = Some stateData →
      agents_status backend = Some agentsRes → body agentsRes = Some agentsData →
      list_projects backend = Some projectsRes → body projectsRes = Some projectsData →
      StateData.status stateData = Some "success" →
      activities (dataAfterPoll backend prev) = acts).
Proof.
  intros features acts.
  assert (Hacts : acts = reverse (imap toActivity features)).
  { subst acts features. unfold activitiesOf.
    by destruct (StateData.features stateData). }
  split; [exact Hacts|].
  split; [by rewrite Hacts, length_reverse, length_imap|].
  split; [|split].
  - intros i f Hi. rewrite Hacts.
    assert (Hlt : i < length features) by (by eapply lookup_lt_Some).
    exists (toActivity i f). split; [|done].
    rewrite reverse_lookup by (rewrite length_imap; lia).
    rewrite length_imap, list_lookup_imap.
    replace (length features - S (length features - S i)) with i by lia.
    by rewrite Hi.
  - intros Hex. subst acts. unfold activitiesOf. rewrite Hex.
    eexists. split; [reflexivity|]. done.
  - intros backend prev stateRes agentsRes projectsRes agentsData projectsData
      Hs Hsb Ha Hab Hp Hpb Hok.
    by rewrite (fetchState_success backend prev _ _ _ _ _ _ Hs Hsb Ha Hab Hp Hpb Hok).
Qed.

Lemma fetchState_activities_witness :
  StateData.features PollExamples.stateBody = Some [PollExamples.addAuth] ∧
  ∃ a : Activity.t,
    activities (dataAfterPoll PollExamples.allUp initialData) = [a] ∧
    Activity.filesChanged a = 2 ∧
    Activity.agents a = ["Orchestrator"] ∧ Activity.safetyChecks a = ["Verified"].
Proof.
  split; [reflexivity|].
  pose proof (fetchState_activities PollExamples.stateBody) as (_ & _ & _ & Hex & Hpoll).
  rewrite (Hpoll PollExamples.allUp initialData _ _ _ _ _
             eq_refl eq_refl eq_refl eq_refl eq_refl eq_refl eq_refl).
  exact (Hex eq_refl).
Defined.

End DashboardFacts.

Section AuthFacts.
Import Auth.

(** C9, as stated, fails in two places. In the [testproject] handler an
    unknown user is answered with status 400, not 401. In the Neuron-Core
    handler a known user with the right password gets status 500 and no
    token when signing the token throws. *)
Lemma login_status_counterexample :
  (findOne oneUser (Body.email strangerLogin) = Value None ∧
   statusCode (Testproject.login oneUser strangerLogin) = 400) ∧
  (findOne noSecret (Body.email aliceLogin) = Value (Some alice) ∧
   comparePassword noSecret alice (Body.password aliceLogin) = Value true ∧
   statusCode (NeuronCore.login noSecret aliceLogin) = 500 ∧
   tokenOf (NeuronCore.login noSecret aliceLogin) = None).
Proof. repeat split. Qed.

(** Splitting a goal or a hypothesis along its connectives. *)
Local Ltac split_all :=
  repeat match goal with
    | |- _ ∧ _ => split
    | |- _ ↔ _ => split
    | |- _ → _ => intro
    | |- ∀ _, _ => intro
    | H : _ ∧ _ |- _ => destruct H
    | H : ∃ _, _ |- _ => destruct H
    | H : _ ∨ _ |- _ => destruct H
    end.

(** The responses of the Neuron-Core handler. *)
Lemma NeuronCore_login_responses (env : Env) (body : Body.t) :
  let core := NeuronCore.login env body in
  (∀ token uid uemail : string,
      core = {| statusCode := 200; json := Session token uid uemail |} ↔
      credentialsPresent body = true ∧
      ∃ user : User.t,
        authenticates env body user ∧
        sign env (NeuronCore.payload user) = Value token ∧
        uid = User._id user ∧ uemail = User.email user) ∧
  (statusCode core = 400 ↔ credentialsPresent body = false) ∧
  (statusCode core = 401 ↔ credentialsPresent body = true ∧ refused env body) ∧
  (statusCode core = 500 ↔
     credentialsPresent body = true ∧ internalError env body NeuronCore.payload) ∧
  statusCode core ∈ [200; 400; 401; 500] ∧
  (tokenOf core = None ↔ statusCode core ≠ 200).
Proof.
  intros core. subst core.
  unfold NeuronCore.login, credentialsPresent, authenticates,
    refused, internalError, tokenOf, mbind, mret, Result_bind, Result_ret.
  destruct (Js.truthy (Body.email body));
    destruct (Js.truthy (Body.password body)); simpl.
  1: destruct (findOne env (Body.email body)) as [|[user|]] eqn:Hfind;
       try destruct (comparePassword env user (Body.password body)) as [|[|]] eqn:Hcompare;
       try destruct (sign env (NeuronCore.payload user)) as [|tokenCore] eqn:HsignCore;
       simpl.
  all: split_all; try (apply list_elem_of_In; simpl; tauto).
  all: simplify_eq; try done; try congruence; eauto 10.
Qed.

(** The responses of the [testproject] handler. *)
Lemma Testproject_login_responses (env : Env) (body : Body.t) :
  let fixture := Testproject.login env body in
  (∀ token uid uemail : string,
      fixture = {| statusCode := 200; json := Session token uid uemail |} ↔
      ∃ user : User.t,
        authenticates env body user ∧
        sign env (Testproject.payload user) = Value token ∧
        uid = User._id user ∧ uemail = User.email user) ∧
  (statusCode fixture = 400 ↔ refused env body) ∧
  (statusCode fixture = 500 ↔ internalError env body Testproject.payload) ∧
  statusCode fixture ∈ [200; 400; 500] ∧
  (tokenOf fixture = None ↔ statusCode fixture ≠ 200).
Proof.
  intros fixture. subst fixture.
  unfold Testproject.login, authenticates,
    refused, internalError, tokenOf, mbind, mret, Result_bind, Result_ret.
  destruct (findOne env (Body.email body)) as [|[user|]] eqn:Hfind;
    try destruct (comparePassword env user (Body.password body)) as [|[|]] eqn:Hcompare;
    try destruct (sign env (Testproject.payload user)) as [|tokenFixture] eqn:HsignFixture;
    simpl.
  all: split_all; try (apply list_elem_of_In; simpl; tauto).
  all: simplify_eq; try done; try congruence; eauto 10.
Qed.

(** C9. The Neuron-Core handler answers with a token and the user's id
    and email exactly when both credentials are present, a user is
    registered under the email, the comparison succeeds and the signing
    returns the token; it answers 400 exactly when a credential is
    missing or empty, 401 exactly when the user is unknown or the
    password wrong, 500 exactly when a collaborator throws. The
    [testproject] handler answers with a token and the user exactly when
    the user is registered, the comparison succeeds and the signing
    returns the token; it answers 400 exactly when the user is unknown or
    the password wrong, 500 exactly when a collaborator throws, and never
    401. In both, a response other than the 200 one carries no token. *)
Theorem login_responses (env : Env) (body : Body.t) :
  let core := NeuronCore.login env body in
  let fixture := Testproject.login env body in
  ((∀ token uid uemail : string,
       core = {| statusCode := 200; json := Session token uid uemail |} ↔
       credentialsPresent body = true ∧
       ∃ user : User.t,
         authenticates env body user ∧
         sign env (NeuronCore.payload user) = Value token ∧
         uid = User._id user ∧ uemail = User.email user) ∧
   (statusCode core = 400 ↔ credentialsPresent body = false) ∧
   (statusCode core = 401 ↔ credentialsPresent body = true ∧ refused env body) ∧
   (statusCode core = 500 ↔
      credentialsPresent body = true ∧ internalError env body NeuronCore.payload) ∧
   statusCode core ∈ [200; 400; 401; 500] ∧
   (tokenOf core = None ↔ statusCode core ≠ 200)) ∧
  ((∀ token uid uemail : string,
       fixture = {| statusCode := 200; json := Session token uid uemail |} ↔
       ∃ user : User.t,
         authenticates env body user ∧
         sign env (Testproject.payload user) = Value token ∧
         uid = User._id user ∧ uemail = User.email user) ∧
   (statusCode fixture = 400 ↔ refused env body) ∧
   (statusCode fixture = 500 ↔ internalError env body Testproject.payload) ∧
   statusCode fixture ∈ [200; 400; 500] ∧
   (tokenOf fixture = None ↔ statusCode fixture ≠ 200)).
Proof.
  split.
  - apply NeuronCore_login_responses.
  - apply Testproject_login_responses.
Qed.

Lemma login_responses_witness :
  authenticates oneUser aliceLogin alice ∧
  NeuronCore.login oneUser aliceLogin
    = {| statusCode := 200; json := Session "jwt:u1" "u1" "alice@example.com" |} ∧
  Testproject.login oneUser aliceLogin
    = {| statusCode := 200; json := Session "jwt:u1" "u1" "alice@example.com" |}.
Proof.
  assert (Ha : authenticates oneUser aliceLogin alice) by (split; reflexivity).
  split; [exact Ha|]. split.
  - apply (proj1 (proj1 (login_responses oneUser aliceLogin))).
    split; [reflexivity|]. exists alice. repeat split.
  - apply (proj1 (proj2 (login_responses oneUser aliceLogin))).
    exists alice. repeat split.
Defined.

End AuthFacts.

Section PipelineViewFacts.
Import TaskStatus Pipeline PipelineView.

(** X1. For a task whose status is the stage at position [k], the circles
    before [k] are drawn completed, the circle at [k] is the current one
    and the circles after [k] are pending: every circle carries exactly
    one of the three state classes and never the failure class. *)
Theorem stage_circles_partition (st : TaskStatus) (k : nat) (s : Stage) (i : nat) :
  stages !! k = Some s → status s = st → i < length stages →
  isCompleted st i = bool_decide (i < k) ∧
  isCurrent st i = bool_decide (i = k) ∧
  circleClasses st i =
    [ "w-12 h-12 rounded-full flex items-center justify-center border-2 transition-all";
      if bool_decide (i < k) then "bg-primary border-primary"
      else if bool_decide (i = k) then "border-primary bg-primary/20 animate-pulse"
      else "border-border bg-muted" ] ∧
  labelClass st i = (if bool_decide (i = k) then "text-foreground" else "text-muted-foreground").
Proof.
  intros Hk <- Hi.
  do 6 (destruct k as [|k]; [injection Hk as <-;
    do 6 (destruct i as [|i]; [vm_compute; done|]); simpl in Hi; lia|]).
  discriminate Hk.
Qed.

Lemma stage_circles_partition_witness :
  isCompleted patching 1 = true ∧ isCurrent patching 3 = true ∧
  isCompleted patching 4 = false ∧ isCurrent patching 4 = false.
Proof.
  pose proof (stage_circles_partition patching 3 _ 1 eq_refl eq_refl) as H1.
  pose proof (stage_circles_partition patching 3 _ 3 eq_refl eq_refl) as H3.
  pose proof (stage_circles_partition patching 3 _ 4 eq_refl eq_refl) as H4.
  simpl in H1, H3, H4.
  destruct (H1 ltac:(lia)) as (-> & _). destruct (H3 ltac:(lia)) as (_ & -> & _).
  destruct (H4 ltac:(lia)) as (-> & -> & _). done.
Defined.

(** X2. The failure marker is never drawn: whatever the status and the
    circle, the icon inside the circle is the stage's own icon, because a
    failed task has stage index -1 and so no active circle. A failed task
    shows every circle as pending, every label muted and an empty
    progress line. *)
Theorem failure_marker_never_drawn (st : TaskStatus) (i : nat) (stage : Stage) :
  circleIcon st i stage = icon stage ∧
  isFailed st && isActive st i = false ∧
  (st = failed →
     isActive st i = false ∧ isCompleted st i = false ∧ isCurrent st i = false ∧
     circleClasses st i =
       [ "w-12 h-12 rounded-full flex items-center justify-center border-2 transition-all";
         "border-border bg-muted" ] ∧
     labelClass st i = "text-muted-foreground" ∧
     progressWidth st = 0%float).
Proof.
  assert (Hact : isActive failed i = false).
  { unfold isActive, currentStage. apply bool_decide_eq_false.
    change (stageIndex failed) with (-1)%Z. lia. }
  assert (Hcomp : isCompleted failed i = false).
  { unfold isCompleted, currentStage. apply bool_decide_eq_false.
    change (stageIndex failed) with (-1)%Z. lia. }
  assert (Hoff : isFailed st && isActive st i = false).
  { destruct st; try reflexivity. by rewrite Hact. }
  split; [|split; [exact Hoff|]].
  - unfold circleIcon. by rewrite Hoff.
  - intros ->. unfold circleClasses, labelClass, isCurrent.
    rewrite Hact, Hcomp. done.
Qed.

Lemma failure_marker_never_drawn_witness :
  circleIcon failed 0 {| status := received; label := "Received"; icon := Inbox |} = Inbox ∧
  progressWidth failed = 0%float.
Proof.
  pose proof (failure_marker_never_drawn failed 0
                {| status := received; label := "Received"; icon := Inbox |})
    as (H1 & _ & H2).
  split; [exact H1|]. by destruct (H2 eq_refl) as (_ & _ & _ & _ & _ & ?).
Defined.

End PipelineViewFacts.

Section IntentFacts.
Import Context AgentsView.

(** Unfolding an intent to the map over the agents cell. *)
Local Ltac intent_ext :=
  apply Store_eq; try done; simpl;
  rewrite <- !list_fmap_compose; apply list_fmap_ext;
  intros _ [aid nm ty st act lrt tu en] _; simpl;
  repeat (case_bool_decide; simpl); simplify_eq; try done.

(** X3. Toggling two agents gives the same store in either order, and
    neither step issues a backend request. *)
Theorem toggleAgentEnabled_commute (id1 id2 : string) (s : Store) :
  (toggleAgentEnabled id1 (toggleAgentEnabled id2 s).1).1
    = (toggleAgentEnabled id2 (toggleAgentEnabled id1 s).1).1 ∧
  (toggleAgentEnabled id1 (toggleAgentEnabled id2 s).1).2 = [] ∧
  (toggleAgentEnabled id2 s).2 = [].
Proof. split; [|done]. intent_ext. Qed.

(** X4. After the retry button of a card has been clicked, no agent with
    that card's id is failed, so no card of that id shows a retry button;
    retrying the same id once more changes nothing. *)
Theorem retryAgent_clears_failure (agentId : string) (s : Store) :
  let s1 := (retryAgent agentId s).1 in
  (∀ agent : Agent.t,
      agent ∈ agents s1 → Agent.id agent = agentId → showsRetry agent = false) ∧
  (retryAgent agentId s1).1 = s1.
Proof.
  intros s1. split.
  - intros agent Hin Hid. subst s1. simpl in Hin.
    apply list_elem_of_fmap in Hin as ([aid nm ty st act lrt tu en] & -> & _).
    simpl in *. unfold showsRetry.
    repeat (case_bool_decide; simpl in * ); simplify_eq; try done.
    all: by apply bool_decide_eq_false.
  - subst s1. apply Store_eq; try done; simpl.
    rewrite <- !list_fmap_compose. apply list_fmap_ext.
    intros _ [aid nm ty st act lrt tu en] _; simpl.
    repeat (case_bool_decide; simpl); simplify_eq; done.
Qed.

Lemma retryAgent_clears_failure_witness :
  Examples.failedVerifier ∈ agents Examples.storeWithFailure ∧
  showsRetry Examples.failedVerifier = true ∧
  ∀ agent : Agent.t,
    agent ∈ agents (clickRetry Examples.failedVerifier Examples.storeWithFailure).1 →
    Agent.id agent = "6" → showsRetry agent = false.
Proof.
  split; [|split; [reflexivity|]].
  - apply list_elem_of_lookup. by exists 5.
  - exact (proj1 (retryAgent_clears_failure "6" Examples.storeWithFailure)).
Defined.

(** X5. Retrying one agent and toggling another (or the same) agent give
    the same store in either order. *)
Theorem retryAgent_toggleAgentEnabled_commute (id1 id2 : string) (s : Store) :
  (retryAgent id1 (toggleAgentEnabled id2 s).1).1
    = (toggleAgentEnabled id2 (retryAgent id1 s).1).1.
Proof. intent_ext. Qed.

(** The status of every agent survives a toggle. *)
Lemma toggleAgentEnabled_status (agentId : string) (s : Store) :
  Agent.status <$> agents (toggleAgentEnabled agentId s).1 = Agent.status <$> agents s.
Proof.
  simpl. rewrite <- list_fmap_compose. apply list_fmap_ext.
  intros _ agent _. simpl. by case_bool_decide.
Qed.

(** A count over the agents is a count over their statuses. *)
Lemma count_by_status (st : AgentStatus.t) (l : list Agent.t) :
  length (base.filter (λ a, Agent.status a = st) l)
    = length (base.filter (λ x, x = st) (Agent.status <$> l)).
Proof.
  induction l as [|a l IH]; [done|].
  rewrite fmap_cons, !filter_cons. simpl.
  destruct (decide (Agent.status a = st)); simpl; by rewrite IH.
Qed.

(** X6. The header counts of the agents page: toggling an agent changes
    neither the working nor the failed count; retrying an agent never
    raises the failed count, never lowers the working count, and keeps
    their sum; the working count never exceeds the number of agents. *)
Theorem agent_counts_under_intents (agentId : string) (s : Store) :
  let toggled := agents (toggleAgentEnabled agentId s).1 in
  let retried := agents (retryAgent agentId s).1 in
  (workingCount toggled = workingCount (agents s) ∧
   failedCount toggled = failedCount (agents s)) ∧
  ((failedCount retried ≤ failedCount (agents s))%nat ∧
   (workingCount (agents s) ≤ workingCount retried)%nat ∧
   workingCount retried + failedCount retried
     = workingCount (agents s) + failedCount (agents s)) ∧
  (workingAgents (agents s) ≤ totalAgents (agents s))%nat.
Proof.
  intros toggled retried. split; [|split].
  - subst toggled. unfold workingCount, failedCount.
    rewrite !count_by_status, toggleAgentEnabled_status. done.
  - subst retried. unfold workingCount, failedCount. simpl.
    induction (agents s) as [|[aid nm ty st act lrt tu en] l IH]; [simpl; lia|].
    rewrite fmap_cons, !filter_cons. simpl.
    destruct st; repeat (case_bool_decide; simpl); repeat (case_decide; simpl);
      simplify_eq; try lia.
  - unfold workingAgents, totalAgents. apply length_filter.
Qed.

(** What inserting an agent does to a list that has its failed agents
    first. *)
Lemma insert_failedFirst (x : Agent.t) (l : list Agent.t) :
  JsArray.insert failedFirst x
      (base.filter (λ a, Agent.status a = AgentStatus.failed) l ++
       base.filter (λ a, Agent.status a ≠ AgentStatus.failed) l)%list
    = (base.filter (λ a, Agent.status a = AgentStatus.failed) (x :: l) ++
       base.filter (λ a, Agent.status a ≠ AgentStatus.failed) (x :: l))%list.
Proof.
  destruct (decide (Agent.status x = AgentStatus.failed)) as [Hx|Hx].
  - rewrite (filter_cons_True (λ a, Agent.status a = AgentStatus.failed)) by done.
    rewrite (filter_cons_False (λ a, Agent.status a ≠ AgentStatus.failed))
      by (intros H; by apply H).
    destruct (base.filter _ l ++ base.filter _ l)%list as [|y rest] eqn:E;
      rewrite <- app_comm_cons, E; [done|].
    simpl. unfold failedFirst. rewrite (bool_decide_true _ Hx). simpl.
    by destruct (bool_decide (Agent.status y = AgentStatus.failed)).
  - rewrite (filter_cons_False (λ a, Agent.status a = AgentStatus.failed)) by done.
    rewrite (filter_cons_True (λ a, Agent.status a ≠ AgentStatus.failed)) by done.
    assert (Hfront : Forall (λ a, Agent.status a = AgentStatus.failed)
                       (base.filter (λ a, Agent.status a = AgentStatus.failed) l)).
    { apply Forall_forall. intros a Ha. by apply list_elem_of_filter in Ha as [? _]. }
    assert (Hback : Forall (λ a, Agent.status a ≠ AgentStatus.failed)
                      (base.filter (λ a, Agent.status a ≠ AgentStatus.failed) l)).
    { apply Forall_forall. intros a Ha. by apply list_elem_of_filter in Ha as [? _]. }
    revert Hback.
    generalize (base.filter (λ a, Agent.status a ≠ AgentStatus.failed) l) as back.
    induction Hfront as [|y front Hy _ IH]; intros back Hback.
    + destruct Hback as [|z back Hz _]; [done|]. simpl in *.
      unfold failedFirst. by repeat (case_bool_decide; simpl).
    + simpl in *. unfold failedFirst at 1.
      repeat (case_bool_decide; simpl); try done.
      by rewrite IH.
Qed.

(** X7. The agent grid shows the failed agents first and the others after
    them, each group in the order of the agents list; nothing is lost or
    duplicated. *)
Theorem sortedAgents_failed_first (agents : list Agent.t) :
  sortedAgents agents
    = (base.filter (λ a, Agent.status a = AgentStatus.failed) agents ++
       base.filter (λ a, Agent.status a ≠ AgentStatus.failed) agents)%list ∧
  sortedAgents agents ≡ₚ agents ∧
  showsRetry <$> sortedAgents agents
    = (replicate (failedCount agents) true ++
       replicate (length agents - failedCount agents) false)%list.
Proof.
  assert (Hsort : sortedAgents agents
    = (base.filter (λ a, Agent.status a = AgentStatus.failed) agents ++
       base.filter (λ a, Agent.status a ≠ AgentStatus.failed) agents)%list).
  { unfold sortedAgents. induction agents as [|x l IH]; [done|].
    simpl. rewrite IH. apply insert_failedFirst. }
  split; [exact Hsort|]. split.
  - rewrite Hsort. clear Hsort.
    induction agents as [|x l IH]; [done|]. rewrite !filter_cons.
    destruct (decide (Agent.status x = AgentStatus.failed)) as [Hx|Hx].
    + rewrite decide_False by (intros H; by apply H). simpl. by rewrite IH.
    + rewrite decide_True by done. rewrite <- Permutation_middle. by rewrite IH.
  - rewrite Hsort, fmap_app. unfold failedCount. f_equal.
    + clear Hsort. induction agents as [|x l IH]; [done|]. rewrite filter_cons.
      destruct (decide (Agent.status x = AgentStatus.failed)) as [Hx|Hx]; [|done].
      rewrite fmap_cons, length_cons, IH. cbn [replicate]. f_equal.
      unfold showsRetry. by apply bool_decide_eq_true.
    + clear Hsort. induction agents as [|x l IH]; [done|].
      pose proof (length_filter (λ a, Agent.status a = AgentStatus.failed) l) as Hle.
      rewrite !filter_cons.
      destruct (decide (Agent.status x = AgentStatus.failed)) as [Hx|Hx].
      * rewrite decide_False by (intros H; by apply H). by rewrite IH.
      * rewrite decide_True by done. rewrite fmap_cons, IH, length_cons.
        replace (S (length l) - length (base.filter (λ a, Agent.status a = AgentStatus.failed) l))
          with (S (length l - length (base.filter (λ a, Agent.status a = AgentStatus.failed) l)))
          by lia.
        cbn [replicate]. f_equal.
        unfold showsRetry. by apply bool_decide_eq_false.
Qed.

Lemma sortedAgents_failed_first_witness :
  Agent.id <$> sortedAgents (agents Examples.storeWithFailure)
    = ["6"; "1"; "2"; "3"; "4"; "5"].
Proof.
  rewrite (proj1 (sortedAgents_failed_first (agents Examples.storeWithFailure))).
  reflexivity.
Defined.

End IntentFacts.

Section SimulationFacts.
Import Context AgentsView Simulation.

(** The interval callback, agent by agent. *)
Lemma tick_from_spec (random : nat → Js.number) (prev : list Agent.t) (calls : nat) :
  length (tick_from random calls prev).1 = length prev ∧
  (tick_from random calls prev).2 = calls + 2 * workingCount prev ∧
  ∀ (i : nat) (agent : Agent.t),
    prev !! i = Some agent →
    ∃ agent' : Agent.t,
      (tick_from random calls prev).1 !! i = Some agent' ∧
      Agent.id agent' = Agent.id agent ∧
      Agent.name agent' = Agent.name agent ∧
      Agent.type agent' = Agent.type agent ∧
      Agent.status agent' = Agent.status agent ∧
      Agent.currentAction agent' = Agent.currentAction agent ∧
      Agent.enabled agent' = Agent.enabled agent ∧
      (Agent.status agent ≠ AgentStatus.working → agent' = agent).
Proof.
  revert calls. induction prev as [|a l IH]; intros calls.
  { split; [done|]. split; [simpl; unfold workingCount; simpl; lia|]. by intros i agent. }
  simpl. unfold workingCount. rewrite filter_cons.
  case_bool_decide as Hw.
  - destruct (IH (S (S calls))) as (Hlen & Hcalls & Hget).
    destruct (tick_from random (S (S calls)) l) as [rest' calls'] eqn:E. simpl in *.
    rewrite decide_True by done.
    split; [by rewrite Hlen|]. split; [rewrite Hcalls; unfold workingCount; simpl; lia|].
    intros [|i] agent Hi; simpl in *.
    + injection Hi as <-. eexists. split; [reflexivity|]. simpl. done.
    + by apply Hget.
  - destruct (IH calls) as (Hlen & Hcalls & Hget).
    destruct (tick_from random calls l) as [rest' calls'] eqn:E. simpl in *.
    rewrite decide_False by done.
    split; [by rewrite Hlen|]. split; [exact Hcalls|].
    intros [|i] agent Hi; simpl in *.
    + injection Hi as <-. eexists. split; [reflexivity|]. done.
    + by apply Hget.
Qed.

(** X8. One firing of the simulation interval keeps the number and the
    order of the agents, never changes an agent that is not working, and
    changes nothing but [tokenUsage] and [lastResponseTime] of a working
    one; it calls [Math.random] exactly twice per working agent and
    writes no other cell of the store. *)
Theorem tick_frame (random : nat → Js.number) (s : Store) :
  let s1 := tick random s in
  length (agents s1) = length (agents s) ∧
  (∀ (i : nat) (agent : Agent.t),
      agents s !! i = Some agent →
      ∃ agent' : Agent.t,
        agents s1 !! i = Some agent' ∧
        Agent.id agent' = Agent.id agent ∧
        Agent.name agent' = Agent.name agent ∧
        Agent.type agent' = Agent.type agent ∧
        Agent.status agent' = Agent.status agent ∧
        Agent.currentAction agent' = Agent.currentAction agent ∧
        Agent.enabled agent' = Agent.enabled agent ∧
        (Agent.status agent ≠ AgentStatus.working → agent' = agent)) ∧
  (tick_from random 0 (agents s)).2 = 2 * workingCount (agents s) ∧
  (tasks s1 = tasks s ∧ activeProject s1 = activeProject s ∧ logs s1 = logs s ∧
   fileChanges s1 = fileChanges s ∧ metrics s1 = metrics s).
Proof.
  intros s1. destruct (tick_from_spec random (agents s) 0) as (Hlen & Hcalls & Hget).
  split; [exact Hlen|]. split; [exact Hget|]. split; [exact Hcalls|done].
Qed.

#[warnings="-inexact-float"]
Lemma tick_frame_witness :
  mockAgents !! 0 = Some
    {| Agent.id := "1"; Agent.name := "Architect"; Agent.type := AgentType.architect;
       Agent.status := AgentStatus.idle; Agent.currentAction := "Awaiting instructions";
       Agent.lastResponseTime := 0%float; Agent.tokenUsage := 0%float;
       Agent.enabled := true |} ∧
  agents (tick (λ _, 0.5%float) (Examples.initialStore 0%Z)) !! 0 = mockAgents !! 0 ∧
  (Agent.tokenUsage <$> agents (tick (λ _, 0.5%float) (Examples.initialStore 0%Z)) !! 1)
    = Some 4546%float.
Proof.
  split; [reflexivity|]. split; [|reflexivity].
  destruct (proj1 (proj2 (tick_frame (λ _, 0.5%float) (Examples.initialStore 0%Z)))
              0 _ eq_refl) as (agent' & -> & _ & _ & _ & _ & _ & _ & Hsame).
  rewrite Hsame; [reflexivity|discriminate].
Defined.

(** Toggling does not change which agents draw random numbers. *)
Lemma tick_from_toggle (random : nat → Js.number) (agentId : string)
    (prev : list Agent.t) (calls : nat) :
  let toggle := λ agent : Agent.t,
    if bool_decide (Agent.id agent = agentId)
    then {| Agent.id := Agent.id agent; Agent.name := Agent.name agent;
            Agent.type := Agent.type agent; Agent.status := Agent.status agent;
            Agent.currentAction := Agent.currentAction agent;
            Agent.lastResponseTime := Agent.lastResponseTime agent;
            Agent.tokenUsage := Agent.tokenUsage agent;
            Agent.enabled := negb (Agent.enabled agent) |}
    else agent in
  tick_from random calls (toggle <$> prev)
    = (toggle <$> (tick_from random calls prev).1, (tick_from random calls prev).2).
Proof.
  intros toggle. revert calls. induction prev as [|a l IH]; intros calls; [done|].
  rewrite fmap_cons. simpl.
  assert (Hst : Agent.status (toggle a) = Agent.status a).
  { subst toggle. simpl. by case_bool_decide. }
  rewrite Hst. case_bool_decide as Hw.
  - rewrite IH. destruct (tick_from random (S (S calls)) l) as [rest' calls']. simpl.
    f_equal. f_equal. subst toggle. simpl. by case_bool_decide.
  - rewrite IH. by destruct (tick_from random calls l) as [rest' calls'].
Qed.

(** X9. The simulation never undoes a toggle: a firing of the interval
    and a toggle of any agent give the same store in either order. *)
Theorem tick_toggleAgentEnabled_commute
    (random : nat → Js.number) (agentId : string) (s : Store) :
  tick random (toggleAgentEnabled agentId s).1
    = (toggleAgentEnabled agentId (tick random s)).1.
Proof.
  apply Store_eq; try done. simpl.
  pose proof (tick_from_toggle random agentId (agents s) 0) as H. simpl in H.
  by rewrite H.
Qed.

End SimulationFacts.

Section LogsViewFacts.
Import LogsPage LogsView.

(** X10. The four severity badges of the filter bar add up to the number
    of log entries, the number of rows shown under a severity filter is
    the number on its badge, and the drawer's error count is the number
    on the error badge. *)
Theorem badge_counts_partition (logs : list LogEntry.t) :
  badgeCount LogSeverity.info logs + badgeCount LogSeverity.warning logs
    + badgeCount LogSeverity.error logs + badgeCount LogSeverity.debug logs
    = length logs ∧
  (∀ sev : LogSeverity.t,
      length (filteredLogs (severity sev) logs) = badgeCount sev logs) ∧
  length (filteredLogs all logs) = length logs ∧
  errorCount logs = badgeCount LogSeverity.error logs ∧
  length (errorRows logs) = errorCount logs.
Proof.
  split; [|done]. unfold badgeCount.
  induction logs as [|l logs IH]; [done|].
  rewrite !filter_cons. destruct (LogEntry.severity l) eqn:E;
    repeat (case_decide; simplify_eq); simpl; lia.
Qed.

(** X11. Filters compose as intersections: applying the same severity
    filter twice is the same as applying it once, applying two different
    severity filters leaves nothing, and [all] is neutral on either
    side. *)
Theorem filteredLogs_compose (f g : Filter) (logs : list LogEntry.t) :
  filteredLogs f (filteredLogs g logs) =
    match f, g with
    | all, _ => filteredLogs g logs
    | _, all => filteredLogs f logs
    | severity a, severity b =>
        if bool_decide (a = b) then filteredLogs g logs else []
    end.
Proof.
  destruct f as [|a], g as [|b]; try done. simpl.
  case_bool_decide as Hab.
  - subst b. induction logs as [|l logs IH]; [done|].
    rewrite filter_cons. case_decide; [|done].
    rewrite filter_cons_True by done. by rewrite IH.
  - induction logs as [|l logs IH]; [done|].
    rewrite filter_cons. case_decide as Hl; [|done].
    rewrite filter_cons_False by congruence. done.
Qed.

(** X12. The page shows its empty state exactly when no entry passes the
    filter: for a severity, when no entry has it; for [all], when there
    are no entries. The drawer shows its error label exactly when an
    entry has severity [error], in the plural from two errors on. *)
Theorem empty_state_iff (f : Filter) (logs : list LogEntry.t) :
  (showsEmptyState f logs = true ↔
   match f with
   | all => logs = []
   | severity sev => ∀ l : LogEntry.t, l ∈ logs → LogEntry.severity l ≠ sev
   end) ∧
  (errorLabel logs = None ↔
   ∀ l : LogEntry.t, l ∈ logs → LogEntry.severity l ≠ LogSeverity.error) ∧
  (errorLabel logs = Some "errors" ↔ 2 ≤ errorCount logs)%nat.
Proof.
  assert (Hnone : ∀ sev, length (base.filter (λ l, LogEntry.severity l = sev) logs) = 0 ↔
                         ∀ l : LogEntry.t, l ∈ logs → LogEntry.severity l ≠ sev).
  { intros sev. split.
    - intros Hlen l Hl Hsev. apply nil_length_inv in Hlen.
      by apply (filter_nil_not_elem_of _ _ l Hlen Hsev).
    - intros Hall. induction logs as [|l logs IH]; [done|].
      rewrite filter_cons_False by (apply Hall; left).
      apply IH. intros l' Hl'. apply Hall. by right. }
  split; [|split].
  - unfold showsEmptyState. rewrite bool_decide_eq_true.
    destruct f as [|sev]; simpl; [|apply Hnone].
    split; [apply nil_length_inv|by intros ->].
  - unfold errorLabel, errorCount. rewrite <- Hnone.
    repeat case_bool_decide; split; try done; lia.
  - unfold errorLabel. repeat case_bool_decide; split; try done; lia.
Qed.

Lemma empty_state_iff_witness :
  showsEmptyState (severity LogSeverity.debug) (Context.mockLogs 0%Z) = true ∧
  showsEmptyState (severity LogSeverity.error) (Context.mockLogs 0%Z) = false ∧
  errorLabel (Context.mockLogs 0%Z) = Some "error".
Proof.
  split; [|split; reflexivity].
  apply (proj1 (empty_state_iff (severity LogSeverity.debug) (Context.mockLogs 0%Z))).
  intros l Hl. unfold Context.mockLogs in Hl.
  repeat (apply elem_of_cons in Hl as [->|Hl]; [discriminate|]).
  by apply elem_of_nil in Hl.
Defined.

End LogsViewFacts.

Section PollFacts.
Import Dashboard Actions.

(** What a poll returns to its caller. *)
Lemma fetchState_cases (backend : Backend) (prev : Data) :
  (dataAfterPoll backend prev = prev ∨
   ∃ (stateRes : Response StateData.t) (agentsRes : Response AgentsData.t)
     (projectsRes : Response ProjectsData.t)
     (stateData : StateData.t) (agentsData : AgentsData.t) (projectsData : ProjectsData.t),
     dashboard_state backend = Some stateRes ∧ body stateRes = Some stateData ∧
     agents_status backend = Some agentsRes ∧ body agentsRes = Some agentsData ∧
     list_projects backend = Some projectsRes ∧ body projectsRes = Some projectsData ∧
     StateData.status stateData = Some "success") ∧
  (fetchState backend prev).2 = inl (ReferenceError "setError").
Proof.
  unfold dataAfterPoll, fetchState, try_catch, Promise_all4, fetch, json, setData,
    setLoading, setError, console_error, throw, mbind, mret, M_bind, M_ret.
  destruct backend as [[[ok1 [sd|]]|] [[ok2 [ad|]]|] [[ok3 [pd|]]|] [[ok4 b4]|]];
    simpl; try (split; [by left|reflexivity]).
  all: destruct (bool_decide (StateData.status sd = Some "success")) eqn:E;
    [apply bool_decide_eq_true in E|split; [by left|reflexivity]].
  all: split; [|reflexivity]; right; do 6 eexists; repeat split; done.
Qed.

(** X13. Polling twice against the same backend answers leaves the view
    model as one poll does. *)
Theorem dataAfterPoll_idempotent (backend : Backend) (prev : Data) :
  dataAfterPoll backend (dataAfterPoll backend prev) = dataAfterPoll backend prev.
Proof.
  destruct (proj1 (fetchState_cases backend prev)) as
    [Hsame|(stateRes & agentsRes & projectsRes & sd & ad & pd &
            Hs & Hsb & Ha & Hab & Hp & Hpb & Hok)].
  - by rewrite !Hsame.
  - rewrite (fetchState_success backend (dataAfterPoll backend prev)
               _ _ _ _ _ _ Hs Hsb Ha Hab Hp Hpb Hok).
    rewrite (fetchState_success backend prev _ _ _ _ _ _ Hs Hsb Ha Hab Hp Hpb Hok).
    simpl. f_equal.
    + by destruct (StateData.metrics sd).
    + by destruct (AgentsData.agents ad).
Qed.

(** X14. A poll never completes normally: on every path it reaches a call
    of [setLoading] or [setError], which the component does not declare,
    and ends by throwing the [ReferenceError] of [setError]. *)
Theorem fetchState_always_throws (backend : Backend) (prev : Data) :
  (fetchState backend prev).2 = inl (ReferenceError "setError").
Proof. apply fetchState_cases. Qed.

(** X15. After a poll that applies, [lastAction] is the timestamp of the
    last feature of the backend list (["Just now"] when that feature has
    no timestamp), and ['Never'] when the list is empty or absent; the
    first row of the timeline is that same feature. *)
Theorem lastAction_is_newest_feature (backend : Backend) (prev : Data)
    (stateRes : Response StateData.t) (agentsRes : Response AgentsData.t)
    (projectsRes : Response ProjectsData.t)
    (stateData : StateData.t) (agentsData : AgentsData.t) (projectsData : ProjectsData.t) :
  dashboard_state backend = Some stateRes → body stateRes = Some stateData →
  agents_status backend = Some agentsRes → body agentsRes = Some agentsData →
  list_projects backend = Some projectsRes → body projectsRes = Some projectsData →
  StateData.status stateData = Some "success" →
  let features := Js.object_or (StateData.features stateData) [] in
  let after := dataAfterPoll backend prev in
  lastAction after =
    match last features with
    | Some f => Js.string_or (Feature.timestamp f) "Just now"
    | None => "Never"
    end ∧
  head (activities after) = toActivity (length features - 1) <$> last features.
Proof.
  intros Hs Hsb Ha Hab Hp Hpb Hok features after. subst after.
  rewrite (fetchState_success backend prev _ _ _ _ _ _ Hs Hsb Ha Hab Hp Hpb Hok).
  cbn [lastAction activities].
  assert (Hhead : head (activitiesOf stateData)
                  = toActivity (length features - 1) <$> last features).
  { subst features. unfold activitiesOf.
    destruct (StateData.features stateData) as [fs|]; [|done]. simpl.
    rewrite head_reverse, !last_lookup, list_lookup_imap, length_imap.
    by replace (length fs - 1) with (pred (length fs)) by lia. }
  split; [|exact Hhead].
  destruct (activitiesOf stateData) as [|first rest];
    destruct (last features) as [f|]; simpl in Hhead; simplify_eq; done.
Qed.

Lemma lastAction_is_newest_feature_witness :
  lastAction (dataAfterPoll PollExamples.allUp initialData) = "2m ago".
Proof.
  exact (proj1 (lastAction_is_newest_feature PollExamples.allUp initialData _ _ _ _ _ _
                  eq_refl eq_refl eq_refl eq_refl eq_refl eq_refl eq_refl)).
Defined.

(** In a list whose keys are distinct, the elements with the key of a
    member are that member alone. *)
Lemma filter_key_NoDup {A : Type} (key : A → nat) (l : list A) (a : A) :
  NoDup (key <$> l) → a ∈ l →
  base.filter (λ x, key x = key a) l = [a].
Proof.
  assert (Hnone : ∀ (k : nat) (l' : list A),
             k ∉ key <$> l' → base.filter (λ x, key x = k) l' = []).
  { intros k l' Hk. induction l' as [|y l' IHl]; [done|].
    rewrite fmap_cons in Hk. apply not_elem_of_cons in Hk as [Hky Hk].
    rewrite filter_cons_False by done. by apply IHl. }
  induction l as [|x l IH]; intros Hnd Hin; [by apply elem_of_nil in Hin|].
  rewrite fmap_cons in Hnd. apply NoDup_cons in Hnd as [Hx Hnd].
  apply elem_of_cons in Hin as [->|Hin].
  - rewrite filter_cons_True by done. f_equal. by apply Hnone.
  - rewrite filter_cons_False; [by apply IH|].
    intros Heq. apply Hx. rewrite Heq. by apply list_elem_of_fmap_2.
Qed.

(** X16. The rows of the timeline have distinct ids (the positions of
    their features in the backend list), so a click on a collapsed row
    expands that row and no other, and a click on the expanded row
    collapses the timeline. *)
Theorem timeline_expands_one_row (stateData : StateData.t) (expanded : option nat)
    (a : Activity.t) :
  let acts := activitiesOf stateData in
  a ∈ acts →
  NoDup (Activity.id <$> acts) ∧
  Activity.id <$> acts
    = reverse (seq 0 (length (Js.object_or (StateData.features stateData) []))) ∧
  (isExpanded expanded a = false →
   base.filter (λ row, isExpanded (clickActivity expanded a) row = true) acts = [a]) ∧
  (isExpanded expanded a = true →
   base.filter (λ row, isExpanded (clickActivity expanded a) row = true) acts = []).
Proof.
  intros acts Hin.
  assert (Hids : Activity.id <$> acts
    = reverse (seq 0 (length (Js.object_or (StateData.features stateData) [])))).
  { subst acts. unfold activitiesOf.
    destruct (StateData.features stateData) as [fs|]; [|done]. simpl.
    rewrite fmap_reverse, fmap_imap. f_equal.
    rewrite (imap_ext _ (λ n _, n)) by done.
    etrans; [apply (imap_seq_0 fs (λ n, n))|]. apply list_fmap_id. }
  assert (Hnd : NoDup (Activity.id <$> acts)).
  { rewrite Hids, reverse_Permutation. apply NoDup_seq. }
  split; [exact Hnd|]. split; [exact Hids|]. unfold clickActivity, isExpanded.
  split; intros Hexp.
  - rewrite Hexp. rewrite <- (filter_key_NoDup Activity.id acts a Hnd Hin).
    apply list_filter_iff. intros row. rewrite bool_decide_eq_true. naive_solver.
  - rewrite Hexp. induction acts as [|row rest IH]; [done|].
    rewrite filter_cons_False; [|by rewrite bool_decide_eq_true].
    clear. induction rest as [|r rest IH]; [done|].
    rewrite filter_cons_False; [done|by rewrite bool_decide_eq_true].
Qed.

Lemma timeline_expands_one_row_witness :
  toActivity 0 PollExamples.addAuth ∈ activitiesOf PollExamples.stateBody ∧
  base.filter (λ row, isExpanded (clickActivity None (toActivity 0 PollExamples.addAuth)) row = true)
    (activitiesOf PollExamples.stateBody) = [toActivity 0 PollExamples.addAuth].
Proof.
  assert (Hin : toActivity 0 PollExamples.addAuth ∈ activitiesOf PollExamples.stateBody)
    by (by left).
  split; [exact Hin|].
  by apply (proj1 (proj2 (proj2 (timeline_expands_one_row PollExamples.stateBody None _ Hin)))).
Defined.

End PollFacts.

Section ActionFacts.
Import Dashboard Actions.

(** X17. The action handlers write the view model only through a poll,
    and poll only after the backend has answered with status ['success']:
    each makes exactly one request; on success the view model becomes
    what a poll makes of it; on any other answer, or none, the view model
    is untouched and exactly one alert is raised. [handleAction] with no
    text, the dialog being cancelled or left empty, makes no request and
    raises no alert. *)
Theorem handlers_poll_only_on_success
    (backend : Backend) (data : Data) (reply : option (Response ActionResult.t))
    (projectPath : string) (answer prompt : option string) :
  let after := λ events, dataAfterEvents backend events data in
  let polled := if replySucceeded reply then dataAfterPoll backend data else data in
  (requests (handleSetProject reply projectPath) = ["/set-project"] ∧
   after (handleSetProject reply projectPath) = polled ∧
   length (alerts (handleSetProject reply projectPath))
     = (if replySucceeded reply then 0 else 1)) ∧
  (requests (handleAnalyze reply) = ["/analyze"] ∧
   after (handleAnalyze reply) = polled ∧
   length (alerts (handleAnalyze reply)) = 1) ∧
  (let feature := if Js.truthy prompt then prompt else answer in
   if Js.truthy feature then
     requests (handleAction reply answer prompt) = ["/build-and-save"] ∧
     after (handleAction reply answer prompt) = polled ∧
     length (alerts (handleAction reply answer prompt)) = 1
   else
     requests (handleAction reply answer prompt) = [] ∧
     after (handleAction reply answer prompt) = data ∧
     alerts (handleAction reply answer prompt) = []).
Proof.
  intros after polled. subst after polled.
  unfold handleSetProject, handleAnalyze, handleAction, replySucceeded.
  split; [|split].
  - destruct reply as [[okr [result|]]|]; simpl; try done.
    by destruct (succeeded result).
  - destruct reply as [[okr [result|]]|]; simpl; try done.
    by destruct (succeeded result).
  - destruct prompt as [p|]; simpl.
    + case_bool_decide as Hp; simpl.
      * subst p. destruct answer as [ans|]; simpl; [|done].
        case_bool_decide; simpl; [done|].
        destruct reply as [[okr [result|]]|]; simpl; try done.
        by destruct (succeeded result).
      * rewrite (bool_decide_false _ Hp).
        destruct reply as [[okr [result|]]|]; simpl; try done.
        by destruct (succeeded result).
    + destruct answer as [ans|]; simpl; [|done].
      case_bool_decide; simpl; [done|].
      destruct reply as [[okr [result|]]|]; simpl; try done.
      by destruct (succeeded result).
Qed.

End ActionFacts.

Section SessionFacts.
Import Auth Session.

(** The pieces of [word ++ " " ++ rest] when [word] has no space. *)
Lemma split_word (word rest : string) :
  Ascii.Space ∉ String.list_ascii_of_string word →
  JsArray.split Ascii.Space (word +:+ String Ascii.Space rest)
    = word :: JsArray.split Ascii.Space rest.
Proof.
  induction word as [|c word IH]; intros Hno; simpl.
  - done.
  - simpl in Hno. apply not_elem_of_cons in Hno as [Hc Hno].
    rewrite bool_decide_false by done. by rewrite IH.
Qed.

(** The first piece of a string without a space is the string. *)
Lemma split_no_space (word : string) :
  Ascii.Space ∉ String.list_ascii_of_string word →
  JsArray.split Ascii.Space word = [word].
Proof.
  induction word as [|c word IH]; intros Hno; simpl; [done|].
  simpl in Hno. apply not_elem_of_cons in Hno as [Hc Hno].
  rewrite bool_decide_false by done. by rewrite IH.
Qed.

(** [verifyToken] on a header made of a scheme word and a token word. *)
Lemma verifyToken_word (verify : string → Result Payload.t) (scheme token : string) :
  Ascii.Space ∉ String.list_ascii_of_string scheme →
  Ascii.Space ∉ String.list_ascii_of_string token →
  verifyToken verify (Some (scheme +:+ " " +:+ token)) =
    if bool_decide (token = "") then
      Respond {| statusCode := 403; json := Message "No token provided!" |}
    else
      match verify token with
      | Thrown => Respond {| statusCode := 401; json := Message "Unauthorized!" |}
      | Value decoded => Next (Payload.id decoded)
      end.
Proof.
  intros Hscheme Htoken. unfold verifyToken, headerToken.
  rewrite bool_decide_false by (by destruct scheme).
  change (scheme +:+ " " +:+ token) with (scheme +:+ String Ascii.Space token).
  rewrite split_word, split_no_space by done. done.
Qed.

(** X18. [verifyToken] looks only at the second space-separated word of
    the header: it answers 403 when the header is absent or has no
    non-empty second word (for instance a bare token, or two spaces after
    the scheme), 401 when that word does not verify, and otherwise hands
    the request on with the payload's id. The scheme word is never
    inspected and what follows a second space is ignored. *)
Theorem verifyToken_second_word (verify : string → Result Payload.t)
    (scheme token trailer : string) :
  Ascii.Space ∉ String.list_ascii_of_string scheme →
  Ascii.Space ∉ String.list_ascii_of_string token →
  let expected :=
    if bool_decide (token = "") then
      Respond {| statusCode := 403; json := Message "No token provided!" |}
    else
      match verify token with
      | Thrown => Respond {| statusCode := 401; json := Message "Unauthorized!" |}
      | Value decoded => Next (Payload.id decoded)
      end in
  verifyToken verify (Some (scheme +:+ " " +:+ token)) = expected ∧
  verifyToken verify (Some (scheme +:+ " " +:+ token +:+ " " +:+ trailer)) = expected ∧
  verifyToken verify (Some scheme)
    = Respond {| statusCode := 403; json := Message "No token provided!" |} ∧
  verifyToken verify None
    = Respond {| statusCode := 403; json := Message "No token provided!" |}.
Proof.
  intros Hscheme Htoken expected.
  assert (Hne : ∀ rest, scheme +:+ String Ascii.Space rest ≠ "").
  { intros rest. by destruct scheme. }
  unfold verifyToken, headerToken.
  split; [|split; [|split; [|done]]].
  - by apply verifyToken_word.
  - change (scheme +:+ " " +:+ token +:+ " " +:+ trailer)
      with (scheme +:+ String Ascii.Space (token +:+ String Ascii.Space trailer)).
    rewrite (bool_decide_false _ (Hne _)).
    rewrite !split_word by done. done.
  - case_bool_decide; [done|]. by rewrite split_no_space.
Qed.

Lemma verifyToken_second_word_witness :
  verifyToken (λ t, if bool_decide (t = "jwt:u1")
                    then Value {| Payload.id := "u1"; Payload.email := None |}
                    else Thrown)
    (Some "Basic jwt:u1") = Next "u1".
Proof.
  refine (proj1 (verifyToken_second_word _ "Basic" "jwt:u1" "" _ _)).
  - vm_compute. intros H. repeat (apply elem_of_cons in H as [H|H]; [discriminate H|]).
    by apply elem_of_nil in H.
  - vm_compute. intros H. repeat (apply elem_of_cons in H as [H|H]; [discriminate H|]).
    by apply elem_of_nil in H.
Defined.

(** X19. A token issued by either login handler opens the protected
    routes for the user it was issued to: when the verifier recovers from
    the token the id that was signed into it and the token is a non-empty
    word without spaces, [verifyToken] on [Bearer <token>] hands the request on
    with the id of the user in the login response. *)
Theorem login_then_verifyToken (env : Env) (verify : string → Result Payload.t)
    (body : Body.t) (token uid uemail : string) :
  (∀ payload : Payload.t,
      sign env payload = Value token →
      ∃ decoded : Payload.t,
        verify token = Value decoded ∧ Payload.id decoded = Payload.id payload) →
  token ≠ "" →
  Ascii.Space ∉ String.list_ascii_of_string token →
  NeuronCore.login env body = {| statusCode := 200; json := Session token uid uemail |} ∨
  Testproject.login env body = {| statusCode := 200; json := Session token uid uemail |} →
  verifyToken verify (Some ("Bearer " +:+ token)) = Next uid.
Proof.
  intros Hverify Hne Hno Hlogin.
  assert (Hdecoded : ∃ payload, verify token = Value payload ∧ Payload.id payload = uid).
  { destruct Hlogin as [Hlogin|Hlogin].
    - apply (proj1 (NeuronCore_login_responses env body)) in Hlogin
        as (_ & user & _ & Hsign & -> & _).
      by apply Hverify in Hsign.
    - apply (proj1 (Testproject_login_responses env body)) in Hlogin
        as (user & _ & Hsign & -> & _).
      by apply Hverify in Hsign. }
  destruct Hdecoded as (payload & Hv & Hid).
  assert (Hb : Ascii.Space ∉ String.list_ascii_of_string "Bearer").
  { vm_compute. intros H. repeat (apply elem_of_cons in H as [H|H]; [discriminate H|]).
    by apply elem_of_nil in H. }
  change ("Bearer " +:+ token) with ("Bearer" +:+ " " +:+ token).
  rewrite (verifyToken_word verify "Bearer" token Hb Hno).
  by rewrite (bool_decide_false _ Hne), Hv, Hid.
Qed.

Lemma login_then_verifyToken_witness :
  NeuronCore.login oneUser aliceLogin
    = {| statusCode := 200; json := Session "jwt:u1" "u1" "alice@example.com" |} ∧
  verifyToken exampleVerify (Some "Bearer jwt:u1") = Next "u1".
Proof.
  assert (Hlogin : NeuronCore.login oneUser aliceLogin
    = {| statusCode := 200; json := Session "jwt:u1" "u1" "alice@example.com" |})
    by reflexivity.
  split; [exact Hlogin|].
  apply (login_then_verifyToken oneUser exampleVerify aliceLogin
           "jwt:u1" "u1" "alice@example.com").
  - intros payload Hsign. vm_compute in Hsign. injection Hsign as Hid.
    eexists. split; [reflexivity|]. symmetry. exact Hid.
  - discriminate.
  - vm_compute. intros H. repeat (apply elem_of_cons in H as [H|H]; [discriminate H|]).
    by apply elem_of_nil in H.
  - by left.
Defined.

(** X20. The login form of the Neuron-Core test project cannot log in
    through the Neuron-Core handler: the form sends the address under the
    key [username], the handler reads [email], so whatever is typed and
    whoever is registered the handler answers 400, and the form shows its
    generic error and stores no token. *)
Theorem LoginForm_never_logs_in (env : Env) (email password : string) (st : FormState) :
  parseBody (LoginForm.requestBody email password)
    = {| Body.email := None; Body.password := Some password |} ∧
  statusCode (NeuronCore.login env (parseBody (LoginForm.requestBody email password))) = 400 ∧
  LoginForm.handleSubmit (neuronCoreServer env) email password st
    = {| error := "An error occurred. Please try again.";
         token := token st; location := location st |}.
Proof. done. Qed.

(** X21. The login form of [src/testproject], served by the testproject
    handler: when the typed address is registered, the password matches
    and the signing returns a token, the form stores that token and
    leaves its error cell as it was, so an earlier error message stays
    on screen; in every other case, an internal error of the server
    included, it shows ['Invalid email or password'] and stores
    nothing. *)
Theorem Login_stores_token_iff (env : Env) (email password : string) (st : FormState) :
  let body := {| Body.email := Some email; Body.password := Some password |} in
  let st1 := Login.handleSubmit (testprojectServer env) email password st in
  (∀ (user : User.t) (tok : string),
      authenticates env body user → sign env (Testproject.payload user) = Value tok →
      st1 = {| error := error st; token := Some tok; location := location st |}) ∧
  ((∀ (user : User.t) (tok : string),
       authenticates env body user → sign env (Testproject.payload user) ≠ Value tok) →
   st1 = {| error := "Invalid email or password";
            token := token st; location := location st |}).
Proof.
  intros body st1. subst st1 body.
  unfold Login.handleSubmit, testprojectServer, Login.requestBody, parseBody,
    Testproject.login, authenticates, mbind, mret, Result_bind, Result_ret.
  simpl.
  destruct (findOne env (Some email)) as [|[user|]] eqn:Hfind; simpl.
  1,3: split; [intros user' tok [Hu _]; simplify_eq|done].
  destruct (comparePassword env user (Some password)) as [|[|]] eqn:Hcompare; simpl.
  1,3: split; [intros user' tok [Hu Hc]; simplify_eq; congruence|done].
  destruct (sign env (Testproject.payload user)) as [|tok0] eqn:Hsign; simpl.
  - split; [intros user' tok [Hu Hc] Hs; simplify_eq; congruence|done].
  - split.
    + intros user' tok [Hu Hc] Hs. simplify_eq.
      assert (tok = tok0) as -> by congruence. done.
    + intros Hnever. by destruct (Hnever user tok0).
Qed.

Lemma Login_stores_token_iff_witness :
  authenticates oneUser aliceLogin alice ∧
  Login.handleSubmit (testprojectServer oneUser) "alice@example.com" "wonderland"
      {| error := "Invalid email or password"; token := None; location := None |}
    = {| error := "Invalid email or password"; token := Some "jwt:u1"; location := None |}.
Proof.
  assert (Ha : authenticates oneUser aliceLogin alice) by (split; reflexivity).
  split; [exact Ha|].
  exact (proj1 (Login_stores_token_iff oneUser "alice@example.com" "wonderland" _)
           alice "jwt:u1" Ha eq_refl).
Defined.

End SessionFacts.

Section ProjectViewFacts.
Import ProjectView.

(** X22. In the project header the Start button is enabled exactly when
    the Pause and Abort buttons are disabled, so the two groups are never
    usable together; and whichever button is clicked, the store stays as
    it is and no backend request is made. *)
Theorem project_controls (project : Project.t) (control : Control) (s : Context.Store) :
  disabled project StartTask = negb (disabled project Pause) ∧
  disabled project Pause = disabled project Abort ∧
  disabled project Retry = false ∧
  (∀ intent : Context.Intent, onClick control = Some intent → intent s = (s, [])).
Proof.
  repeat split.
  - unfold disabled. by rewrite negb_involutive.
  - intros intent Hclick. destruct control; by simplify_eq/=.
Qed.

Lemma project_controls_witness :
  disabled (Context.mockProject 0%Z) StartTask = true ∧
  Context.pauseTask (Examples.initialStore 0%Z) = (Examples.initialStore 0%Z, []).
Proof.
  split; [reflexivity|].
  exact (proj2 (proj2 (proj2 (project_controls (Context.mockProject 0%Z) Pause
                               (Examples.initialStore 0%Z)))) _ eq_refl).
Defined.

End ProjectViewFacts.

Section RefusalFacts.
Import Auth.

(** X23. A refused login does not tell whether the address is
    registered: an unknown address and a wrong password get the very same
    response, status and message, from the Neuron-Core handler (401) and
    from the testproject handler (400), and that response carries no
    token. *)
Theorem login_refusal_uniform (env : Env) (body : Body.t) :
  refused env body →
  (credentialsPresent body = true →
   NeuronCore.login env body
     = {| statusCode := 401;
          json := Message "Unauthorized - user not found or password incorrect" |}) ∧
  Testproject.login env body
    = {| statusCode := 400; json := Message "Invalid email or password" |}.
Proof.
  intros Href.
  unfold NeuronCore.login, Testproject.login, credentialsPresent,
    mbind, mret, Result_bind, Result_ret.
  destruct Href as [Hnone|(user & Hfind & Hcompare)].
  - rewrite Hnone. split; [|done]. intros Hp.
    apply andb_true_iff in Hp as [-> ->]. done.
  - rewrite Hfind, Hcompare. split; [|done]. intros Hp.
    apply andb_true_iff in Hp as [-> ->]. done.
Qed.

Lemma login_refusal_uniform_witness :
  refused oneUser strangerLogin ∧
  refused oneUser {| Body.email := Some "alice@example.com"; Body.password := Some "guess" |} ∧
  NeuronCore.login oneUser strangerLogin
    = NeuronCore.login oneUser
        {| Body.email := Some "alice@example.com"; Body.password := Some "guess" |}.
Proof.
  assert (H1 : refused oneUser strangerLogin) by (by left).
  assert (H2 : refused oneUser
                 {| Body.email := Some "alice@example.com"; Body.password := Some "guess" |}).
  { right. exists alice. split; reflexivity. }
  split; [exact H1|]. split; [exact H2|].
  rewrite (proj1 (login_refusal_uniform _ _ H1) eq_refl).
  rewrite (proj1 (login_refusal_uniform _ _ H2) eq_refl).
  reflexivity.
Defined.

End RefusalFacts.
